(** * Supplier monitor (app.py): the parser, the query builder, the retrying
      client and the scan loop, embedded as Rocq functions.

    Python [str] values are sequences of Unicode code points and are modelled
    as [list N].  Exceptions are explicit: fallible code returns a [result].
    The network, the clock and the data file are read through a [World]
    record that is threaded through the stateful functions.  Calls to
    [logger] have no influence on any value computed and are left out. *)

From Stdlib Require Import ZArith NArith List Ascii String Lia DecimalString.
From stdpp Require Import base list gmap.
Import ListNotations.

Local Open Scope N_scope.

(** ** Python strings *)

Module PyStr.

Abbreviation pystr := (list N).

(** A string literal of the source, code point by code point. *)
Definition py (s : string) : pystr :=
  map N_of_ascii (list_ascii_of_string s).

(** Truth value of a string: [if line], [not line]. *)
Definition truthy (s : pystr) : bool :=
  match s with [] => false | _ => true end.

(** [len(s)] *)
Definition len (s : pystr) : Z := Z.of_nat (length s).

(** The code points [str.strip()] removes: those for which
    [str.isspace] holds (CPython's [_PyUnicode_IsWhitespace]). *)
Definition isspace (c : N) : bool :=
  ((0x09 <=? c) && (c <=? 0x0D)) || ((0x1C <=? c) && (c <=? 0x20))
  || (c =? 0x85) || (c =? 0xA0) || (c =? 0x1680)
  || ((0x2000 <=? c) && (c <=? 0x200A))
  || (c =? 0x2028) || (c =? 0x2029) || (c =? 0x202F) || (c =? 0x205F)
  || (c =? 0x3000).

Fixpoint lstrip (s : pystr) : pystr :=
  match s with
  | c :: s' => if isspace c then lstrip s' else s
  | [] => []
  end.

Definition rstrip (s : pystr) : pystr := rev (lstrip (rev s)).

(** [s.strip()] *)
Definition strip (s : pystr) : pystr := rstrip (lstrip s).

(** [s.split(sep)] for a separator of one code point; never the empty list. *)
Fixpoint split (sep : N) (s : pystr) : list pystr :=
  match s with
  | [] => [[]]
  | c :: s' =>
      if c =? sep then [] :: split sep s'
      else match split sep s' with
           | l :: ls => (c :: l) :: ls
           | [] => [[c]]
           end
  end.

(** [s.startswith(p)] *)
Fixpoint startswith (s p : pystr) {struct p} : bool :=
  match p, s with
  | [], _ => true
  | _ :: _, [] => false
  | a :: p', b :: s' => (a =? b) && startswith s' p'
  end.

(** [sub in s] *)
Fixpoint contains (sub s : pystr) : bool :=
  startswith s sub ||
  match s with
  | [] => false
  | _ :: s' => contains sub s'
  end.

(** Lowest index [i >= at] of an occurrence of [sub] in a string whose
    suffix from [at] on is [s]; [-1] when there is none. *)
Fixpoint find_from (sub s : pystr) (at_ : Z) : Z :=
  if startswith s sub then at_
  else match s with
       | [] => (-1)%Z
       | _ :: s' => find_from sub s' (at_ + 1)
       end.

(** Python's clamping of a slice bound or a [find] start to [0..len]. *)
Definition clamp (s : pystr) (i : Z) : Z :=
  if (i <? 0)%Z then Z.max 0 (i + len s) else Z.min i (len s).

(** [s.find(sub, start)], [start] defaulting to 0. *)
Definition find (sub s : pystr) (start : Z) : Z :=
  if (len s <? start)%Z then (-1)%Z
  else let i := clamp s start in
       find_from sub (drop (Z.to_nat i) s) i.

(** [s[i:j]] *)
Definition slice (s : pystr) (i j : Z) : pystr :=
  let a := clamp s i in
  let b := clamp s j in
  take (Z.to_nat (b - a)) (drop (Z.to_nat a) s).

(** [s[i:]] *)
Definition slice_from (s : pystr) (i : Z) : pystr :=
  drop (Z.to_nat (clamp s i)) s.

(** Lower-casing of an ASCII code point. *)
Definition ascii_lower (c : N) : N :=
  if (0x41 <=? c) && (c <=? 0x5A) then c + 32 else c.

(** [s.lower()].  CPython lowers position by position: an ASCII code point
    becomes its lower-case letter, any other code point is replaced by what
    the Unicode database gives for it in its context (the code points before
    it, nearest first, and those after it; the context matters for the Greek
    final sigma).  The database is not part of the program: it is the
    argument [special]. *)
Fixpoint lower_from (special : pystr -> N -> pystr -> pystr)
    (before s : pystr) : pystr :=
  match s with
  | [] => []
  | c :: s' =>
      (if c <? 128 then [ascii_lower c] else special before c s')
      ++ lower_from special (c :: before) s'
  end.

Definition lower (special : pystr -> N -> pystr -> pystr) (s : pystr) : pystr :=
  lower_from special [] s.

(** [str(n)] for an integer. *)
Definition str_of_Z (n : Z) : pystr :=
  py (NilZero.string_of_int (Z.to_int n)).

End PyStr.
Import PyStr.

(** ** Exceptions *)

(** The exception classes that occur: those the parser can meet, the class
    [requests.exceptions.RequestException] (with its subclasses), and any
    other class. *)
Inductive exn :=
| KeyError | IndexError | TypeError | AttributeError
| RequestException | UnicodeEncodeError | OtherException.

#[global] Instance exn_eq_dec : EqDecision exn.
Proof. solve_decision. Defined.

Inductive result (A : Type) :=
| Ret (a : A)
| Raise (e : exn).
Arguments Ret {A} a.
Arguments Raise {A} e.

Definition rbind {A B} (r : result A) (k : A -> result B) : result B :=
  match r with
  | Ret a => k a
  | Raise e => Raise e
  end.

(** [try: r  except classes: return h] *)
Definition try_except {A} (r : result A) (caught : exn -> bool) (h : result A)
  : result A :=
  match r with
  | Ret a => Ret a
  | Raise e => if caught e then h else Raise e
  end.

Declare Scope result_scope.
Delimit Scope result_scope with result.
Notation "x <- r ;; k" := (rbind r (fun x => k))
  (at level 100, r at next level, right associativity) : result_scope.

(** ** Decoded JSON, as [response.json()] returns it *)

(** Numbers are ints or floats in Python; the program never looks at
    their value, the integer stands for either. *)
#[warnings="-register-all"]
Inductive json :=
| JNull
| JBool (b : bool)
| JNum (n : Z)
| JStr (s : pystr)
| JArr (items : list json)
| JObj (members : list (pystr * json)).

Fixpoint assoc (key : pystr) (members : list (pystr * json)) : option json :=
  match members with
  | [] => None
  | (k, v) :: rest => if decide (k = key) then Some v else assoc key rest
  end.

(** [x[key]] for a string key. *)
Definition getitem_str (x : json) (key : pystr) : result json :=
  match x with
  | JObj members =>
      match assoc key members with
      | Some v => Ret v
      | None => Raise KeyError
      end
  | _ => Raise TypeError
  end.

(** [x[0]] *)
Definition getitem_0 (x : json) : result json :=
  match x with
  | JArr (v :: _) => Ret v
  | JArr [] => Raise IndexError
  | JStr (c :: _) => Ret (JStr [c])
  | JStr [] => Raise IndexError
  | JObj _ => Raise KeyError
  | _ => Raise TypeError
  end.

(** [x.lower()]: only strings have the method. *)
Definition lower_method (special : pystr -> N -> pystr -> pystr) (x : json)
  : result pystr :=
  match x with
  | JStr s => Ret (lower special s)
  | _ => Raise AttributeError
  end.

(** [x.split(sep)] *)
Definition split_method (x : json) (sep : N) : result (list pystr) :=
  match x with
  | JStr s => Ret (split sep s)
  | _ => Raise AttributeError
  end.

(** ** Articles *)

(** An article is a dict whose keys are among ['title'], ['summary'] and
    ['link']; [None] in a field means that the key is absent. *)
Record Article := mkArticle {
  title : option pystr;
  summary : option pystr;
  link : option pystr
}.

#[global] Instance Article_eq_dec : EqDecision Article.
Proof. solve_decision. Defined.

Inductive key := k_title | k_summary | k_link.

(** [a.get(k)] *)
Definition get (a : Article) (k : key) : option pystr :=
  match k with
  | k_title => title a
  | k_summary => summary a
  | k_link => link a
  end.

(** [k in a] *)
Definition has_key (a : Article) (k : key) : bool :=
  match get a k with Some _ => true | None => false end.

(** [a[k]] *)
Definition getitem (a : Article) (k : key) : result pystr :=
  match get a k with
  | Some v => Ret v
  | None => Raise KeyError
  end.

(** [a[k] = v] *)
Definition setitem (a : Article) (k : key) (v : pystr) : Article :=
  match k with
  | k_title => mkArticle (Some v) (summary a) (link a)
  | k_summary => mkArticle (title a) (Some v) (link a)
  | k_link => mkArticle (title a) (summary a) (Some v)
  end.

(** Truth value of a dict: it has a key. *)
Definition dict_truthy (a : Article) : bool :=
  has_key a k_title || has_key a k_summary || has_key a k_link.

(** Truth value of [current_article], which is [None] or a dict. *)
Definition opt_truthy (c : option Article) : bool :=
  match c with
  | Some a => dict_truthy a
  | None => false
  end.

(** Truth value of [a.get(k)], which is [None] or a string. *)
Definition get_truthy (a : Article) (k : key) : bool :=
  match get a k with
  | Some v => truthy v
  | None => false
  end.

(** The article of the source's literal
    [{'title': t, 'summary': s, 'link': l}]. *)
Definition article (t s l : pystr) : Article :=
  mkArticle (Some t) (Some s) (Some l).

Record Supplier := mkSupplier {
  name : pystr;
  domain : pystr;
  query : pystr
}.

(** ** The line-oriented parse (the [for line in lines] loop) *)

Definition bullet : N := 0x2022.

(** [line.startswith('*') or line.startswith('-') or line.startswith('•')] *)
Definition is_bullet_line (line : pystr) : bool :=
  startswith line (py "*") || startswith line (py "-") || startswith line [bullet].

(** ["http" in line and "://" in line] *)
Definition has_url (line : pystr) : bool :=
  contains (py "http") line && contains (py "://") line.

(** The two variables the loop updates. *)
Record PState := mkPState {
  articles : list Article;
  current_article : option Article
}.

Definition initial : PState := mkPState [] None.

(** Which statements of the loop body one line ran; the state does not
    depend on it, it names the path for the theorems. *)
Inductive path :=
| Blank            (* [continue] at the empty line *)
| LinkClose        (* link attached, article appended, accumulator cleared *)
| LinkSkip         (* link line, [continue] without any change *)
| NewTitle         (* non-bullet line: a new article is opened *)
| BulletLink       (* bullet line with a URL, link assigned *)
| BulletLinkSkip   (* bullet line with a URL, no open article *)
| BulletTitle      (* bullet line assigned to ['title'] *)
| BulletSummary    (* bullet line assigned to ['summary'] *)
| BulletSkip       (* bullet line dropped *)
| NoBranch.        (* neither the [if] nor the [elif] of the bullet test *)

#[global] Instance path_eq_dec : EqDecision path.
Proof. solve_decision. Defined.

Local Open Scope result_scope.

(** One iteration of the loop, on the line as [split] gave it. *)
Definition loop_body (st : PState) (line0 : pystr) : result (PState * path) :=
  let line := strip line0 in
  if negb (truthy line) then Ret (st, Blank)
  else if has_url line then
    match current_article st with
    | Some ca =>
        if dict_truthy ca && negb (has_key ca k_link) then
          let url_start := find (py "http") line 0 in
          let url_end :=
            if (find (py " ") line url_start >? 0)%Z
            then find (py " ") line url_start else len line in
          let url := strip (slice line url_start url_end) in
          Ret (mkPState (articles st ++ [setitem ca k_link url]) None, LinkClose)
        else Ret (st, LinkSkip)
    | None => Ret (st, LinkSkip)
    end
  else if negb (is_bullet_line line) then
    let articles' :=
      match current_article st with
      | Some ca => if dict_truthy ca then articles st ++ [ca] else articles st
      | None => articles st
      end in
    Ret (mkPState articles' (Some (article line [] [])), NewTitle)
  else if is_bullet_line line then
    let line := if is_bullet_line line then strip (slice_from line 1) else line in
    if has_url line then
      let url_start := find (py "http") line 0 in
      let url := strip (slice_from line url_start) in
      match current_article st with
      | Some ca =>
          if dict_truthy ca
          then Ret (mkPState (articles st) (Some (setitem ca k_link url)), BulletLink)
          else Ret (st, BulletLinkSkip)
      | None => Ret (st, BulletLinkSkip)
      end
    else
      match current_article st with
      | Some ca =>
          if dict_truthy ca then
            t <- getitem ca k_title ;;
            if negb (truthy t)
            then Ret (mkPState (articles st) (Some (setitem ca k_title line)), BulletTitle)
            else
              s <- getitem ca k_summary ;;
              if negb (truthy s)
              then Ret (mkPState (articles st) (Some (setitem ca k_summary line)), BulletSummary)
              else Ret (st, BulletSkip)
          else Ret (st, BulletSkip)
      | None => Ret (st, BulletSkip)
      end
  else Ret (st, NoBranch).

(** The whole loop; an exception leaves it at once. *)
Fixpoint loop (st : PState) (lines : list pystr) : result PState :=
  match lines with
  | [] => Ret st
  | line :: rest =>
      r <- loop_body st line ;;
      loop (fst r) rest
  end.

(** The paths taken, line by line (for as long as no exception is raised). *)
Fixpoint paths (st : PState) (lines : list pystr) : list path :=
  match lines with
  | [] => []
  | line :: rest =>
      match loop_body st line with
      | Ret (st', p) => p :: paths st' rest
      | Raise _ => []
      end
  end.

(** [if current_article: articles.append(current_article)] after the loop. *)
Definition flush (st : PState) : list Article :=
  match current_article st with
  | Some ca => if dict_truthy ca then articles st ++ [ca] else articles st
  | None => articles st
  end.

(** The condition of the final list comprehension. *)
Definition keep (a : Article) : bool :=
  get_truthy a k_title && (get_truthy a k_summary || get_truthy a k_link).

(** The articles appended by the loop and after it, before the filter. *)
Definition emitted (lines : list pystr) : result (list Article) :=
  st <- loop initial lines ;;
  Ret (flush st).

(** Line 197: [response["choices"][0]["message"]["content"]]. *)
Definition content_of (response : json) : result json :=
  choices <- getitem_str response (py "choices") ;;
  choice <- getitem_0 choices ;;
  message <- getitem_str choice (py "message") ;;
  getitem_str message (py "content").

(** The test of line 201, on the lowered content. *)
Definition no_new_content (lowered : pystr) : bool :=
  contains (py "no new content") lowered
  || contains (py "no recent") lowered
  || contains (py "couldn't find") lowered.

Definition caught_by_parser (e : exn) : bool :=
  bool_decide (e = KeyError) || bool_decide (e = IndexError).

(** A response whose answer text is [text]. *)
Definition response_of (text : pystr) : json :=
  JObj [(py "choices",
         JArr [JObj [(py "message", JObj [(py "content", JStr text)])]])].

(** ** Dates (Python's [datetime], naive values) *)

Record datetime := mkDatetime {
  year : Z; month : Z; day : Z;
  hour : Z; minute : Z; second : Z; microsecond : Z
}.

Local Open Scope Z_scope.

Definition is_leap (y : Z) : bool :=
  (y mod 4 =? 0) && (negb (y mod 100 =? 0) || (y mod 400 =? 0)).

Definition days_before_year (y : Z) : Z :=
  let p := y - 1 in p * 365 + p / 4 - p / 100 + p / 400.

Definition days_before_month (y m : Z) : Z :=
  nth (Z.to_nat m) [0; 0; 31; 59; 90; 120; 151; 181; 212; 243; 273; 304; 334] 0
  + (if (2 <? m) && is_leap y then 1 else 0).

(** [d.toordinal()] *)
Definition toordinal (d : datetime) : Z :=
  days_before_year (year d) + days_before_month (year d) (month d) + day d.

Definition microseconds (d : datetime) : Z :=
  ((toordinal d * 86400 + hour d * 3600 + minute d * 60 + second d) * 1000000)
  + microsecond d.

(** [(a - b).days]: a [timedelta] is normalised so that its seconds and
    microseconds are not negative; its days round towards minus infinity. *)
Definition timedelta_days (a b : datetime) : Z :=
  (microseconds a - microseconds b) / (86400 * 1000000).

(** A decimal number padded with zeros to [width] digits ([%m], [%d]). *)
Definition zero_padded (width : nat) (n : Z) : pystr :=
  let digits := str_of_Z n in
  replicate (width - length digits) 0x30%N ++ digits.

(** [d.strftime("%m/%d/%Y")].  [%Y] is printed by the C library; glibc,
    the library of the platform the program is deployed on, prints the year
    in decimal without padding (999 gives [999]).  A library that pads to
    four digits differs for the years below 1000 only. *)
Definition strftime_mdY (d : datetime) : pystr :=
  zero_padded 2 (month d) ++ py "/" ++ zero_padded 2 (day d) ++ py "/"
  ++ str_of_Z (year d).

(** ** The request payload ([data]) *)

Record Payload := mkPayload {
  model : pystr;
  system_content : pystr;
  user_content : pystr;
  search_domain_filter : list pystr;
  search_recency_filter : pystr;
  search_after_date_filter : option pystr   (* [None]: the key is absent *)
}.

(** ** The world the monitor runs in *)

(** What one pass through [requests.post], [raise_for_status] and
    [response.json()] gives: the decoded body, or the exception one of the
    three raised. *)
Inductive outcome :=
| Responds (body : json)
| Raises (e : exn).

(** What the server did, and what [requests] makes of it in the three
    calls: no reply at all ([requests.post] raises [e]), or a reply with a
    status and a body that is JSON ([Some]) or not ([None]).
    [raise_for_status] raises [HTTPError] for the statuses 400 to 599 and
    [response.json()] raises [requests.exceptions.JSONDecodeError] for a
    body that is not JSON; both are subclasses of [RequestException]. *)
Inductive http_reply :=
| NoReply (e : exn)
| Reply (status : Z) (body : option json).

Definition outcome_of_reply (r : http_reply) : outcome :=
  match r with
  | NoReply e => Raises e
  | Reply status body =>
      if (400 <=? status)%Z && (status <? 600)%Z then Raises RequestException
      else match body with
           | Some decoded => Responds decoded
           | None => Raises RequestException
           end
  end.

(** [self.last_scan_data]; the last-scan time is kept as the value its ISO
    string stands for. [all_results] may hold whatever [query_perplexity]
    returned, [None] included. *)
Record ScanData := mkScanData {
  last_scan : option datetime;
  results : gmap pystr (option (list Article))
}.

(** What the data file holds, as [_load_last_scan_data] meets it. *)
Inductive file_state :=
| Missing          (* no such file: [FileNotFoundError] *)
| NotJSON          (* a text [json.load] refuses ([JSONDecodeError]), as an
                      empty or a cut-off file is *)
| Unreadable       (* [open] or the decoding of the bytes raises another
                      exception (no permission, bytes that are not UTF-8) *)
| Holds (d : ScanData).
                   (* the text [_save_last_scan_data] writes for [d] *)

(** How a write of the data file ends. *)
Inductive write_outcome :=
| Written          (* [json.dump] wrote the whole state *)
| OpenFails        (* [open(..., 'w')] raises: the file is as it was *)
| DumpFails.       (* the write raises after [open], which emptied the
                      file: what is left is not JSON *)

Record World := mkWorld {
  network : nat -> outcome;        (* outcome of the n-th request *)
  clock : nat -> datetime;         (* value of the n-th [datetime.now()] *)
  writing : write_outcome;         (* how a write of the data file ends *)
  requests_made : list Payload;    (* payloads posted, oldest first *)
  clock_reads : nat;
  slept : list Z;                  (* arguments of [time.sleep], oldest first *)
  last_scan_data : ScanData;
  data_file : file_state;
  notified : list (gmap pystr (option (list Article)))
                                   (* results handed to the mail transport *)
}.

Definition M (A : Type) : Type := World -> result A * World.

(** [datetime.now()] *)
Definition datetime_now (w : World) : datetime * World :=
  (clock w (clock_reads w),
   mkWorld (network w) (clock w) (writing w) (requests_made w)
     (S (clock_reads w)) (slept w) (last_scan_data w) (data_file w) (notified w)).

(** [time.sleep(t)] *)
Definition sleep (t : Z) (w : World) : World :=
  mkWorld (network w) (clock w) (writing w) (requests_made w)
    (clock_reads w) (slept w ++ [t]) (last_scan_data w) (data_file w) (notified w).

(** [requests.post(url, headers=headers, json=data)], [raise_for_status()]
    and [response.json()]. *)
Definition post (data : Payload) (w : World) : outcome * World :=
  (network w (length (requests_made w)),
   mkWorld (network w) (clock w) (writing w) (requests_made w ++ [data])
     (clock_reads w) (slept w) (last_scan_data w) (data_file w) (notified w)).

Definition set_last_scan_data (d : ScanData) (w : World) : World :=
  mkWorld (network w) (clock w) (writing w) (requests_made w)
    (clock_reads w) (slept w) d (data_file w) (notified w).

Definition set_data_file (f : file_state) (w : World) : World :=
  mkWorld (network w) (clock w) (writing w) (requests_made w)
    (clock_reads w) (slept w) (last_scan_data w) f (notified w).

Definition add_notified (m : gmap pystr (option (list Article))) (w : World)
  : World :=
  mkWorld (network w) (clock w) (writing w) (requests_made w)
    (clock_reads w) (slept w) (last_scan_data w) (data_file w)
    (notified w ++ [m]).

(** ** The text of the notification (lines 288-307) *)

(** The lines one article adds to [body]. *)
Definition article_text (a : Article) : pystr :=
  let title := default (py "No Title") (get a k_title) in
  let summary := default (py "No Summary") (get a k_summary) in
  let link := default [] (get a k_link) in
  py "* " ++ title ++ [10%N] ++ py "* " ++ summary ++ [10%N]
  ++ (if truthy link then py "* " ++ link ++ [10%N] else [])
  ++ [10%N].

(** What one pass of [for supplier_name, articles in results.items()]
    adds; code point 34 is the double quote. *)
Definition supplier_section (supplier_name : pystr)
    (articles : option (list Article)) : pystr :=
  match articles with
  | Some (a :: arts) =>
      [34%N] ++ supplier_name ++ [34%N; 10%N]
      ++ flat_map article_text (a :: arts)
      ++ py "-----" ++ [10%N; 10%N]
  | _ => []
  end.

(** [body], for the items of [results] in the order the dict gives them. *)
Definition email_body (items : list (pystr * option (list Article))) : pystr :=
  py "Here are the latest updates from EPS Global suppliers:" ++ [10%N; 10%N]
  ++ flat_map (fun kv => supplier_section (fst kv) (snd kv)) items.

(** A lone surrogate (a code point from U+D800 to U+DFFF) has no UTF-8
    encoding: [str.encode] raises [UnicodeEncodeError] on a text with one. *)
Definition is_surrogate (c : N) : bool := (0xD800 <=? c)%N && (c <=? 0xDFFF)%N.

(** The text can be encoded, as [MIMEText] does it (US-ASCII, else UTF-8). *)
Definition encodable (text : pystr) : bool := negb (existsb is_surrogate text).

(** ** [SupplierMonitor] *)

Section Monitor.

(** What [str.lower] makes of a code point outside ASCII (see [lower]). *)
Variable unicode_lower : pystr -> N -> pystr -> pystr.

(** [_parse_perplexity_response] *)
Definition _parse_perplexity_response (response : json) (supplier : Supplier)
  : result (list Article) :=
  try_except
    (content <- content_of response ;;
     lowered <- lower_method unicode_lower content ;;
     if no_new_content lowered then Ret []
     else
       lines <- split_method content 10 ;;
       arts <- emitted lines ;;
       Ret (filter (fun a => keep a = true) arts))
    caught_by_parser
    (Ret []).

Definition empty_data : ScanData := mkScanData None ∅.

(** [_load_last_scan_data]: only [FileNotFoundError] and
    [json.JSONDecodeError] are caught. *)
Definition _load_last_scan_data (w : World) : result ScanData :=
  match data_file w with
  | Holds d => Ret d
  | Missing | NotJSON => Ret empty_data
  | Unreadable => Raise OtherException
  end.

(** [__init__]: the fields are set and the data file is read. *)
Definition __init__ (w : World) : result unit * World :=
  match _load_last_scan_data w with
  | Ret d => (Ret tt, set_last_scan_data d w)
  | Raise e => (Raise e, w)
  end.

(** [_save_last_scan_data]: an exception of the write is caught, whether
    [open] or [json.dump] raised it. *)
Definition _save_last_scan_data (w : World) : World :=
  match writing w with
  | Written => set_data_file (Holds (last_scan_data w)) w
  | OpenFails => w
  | DumpFails => set_data_file NotJSON w
  end.

(** Lines 132-143: the time-frame phrase. *)
Definition time_frame_of_days (days_since_last_scan : Z) : pystr :=
  if days_since_last_scan <=? 1 then py "in the last day"
  else if days_since_last_scan <=? 7 then py "in the last week"
  else py "in the last " ++ str_of_Z days_since_last_scan ++ py " days".

Definition build_time_frame (w : World) : pystr * World :=
  match last_scan (last_scan_data w) with
  | Some last_scan_date =>
      let (now, w') := datetime_now w in
      (time_frame_of_days (timedelta_days now last_scan_date), w')
  | None => ([], w)
  end.

(** Line 145. *)
Definition build_query (supplier : Supplier) (time_frame : pystr) : pystr :=
  py "Find " ++ query supplier ++ py " from " ++ domain supplier ++ py " "
  ++ time_frame
  ++ py ". Focus only on new content published since yesterday. Format each result with the title, a brief summary, and the URL.".

(** Lines 154-175. *)
Definition build_data (supplier : Supplier) (query : pystr)
    (last_scan : option datetime) : Payload :=
  mkPayload (py "sonar-pro")
    (py "You are a monitoring assistant that scans websites for new content. List only content that has been published recently. Format each result item with a title, brief summary, and link. If no new content is found, clearly state that.")
    query
    [domain supplier]
    (py "month")
    (match last_scan with
     | Some last_scan_date => Some (strftime_mdY last_scan_date)
     | None => None
     end).

Definition max_retries : Z := 3.

(** [range(n)] *)
Definition range (n : Z) : list Z := map Z.of_nat (seq 0 (Z.to_nat n)).

(** The [for attempt in range(max_retries)] loop over the attempts left.
    Falling out of the loop would make the function return [None]. *)
Fixpoint attempts (supplier : Supplier) (data : Payload) (todo : list Z)
  : M (option (list Article)) :=
  fun w =>
  match todo with
  | [] => (Ret None, w)
  | attempt :: rest =>
      let (o, w1) := post data w in
      match o with
      | Responds result =>
          (rbind (_parse_perplexity_response result supplier)
                 (fun arts => Ret (Some arts)), w1)
      | Raises e =>
          if bool_decide (e = RequestException) then
            if attempt <? max_retries - 1
            then attempts supplier data rest (sleep (2 ^ attempt) w1)
            else (Ret (Some []), w1)
          else (Raise e, w1)
      end
  end.

Definition query_perplexity (supplier : Supplier) : M (option (list Article)) :=
  fun w =>
  let (time_frame, w1) := build_time_frame w in
  let query := build_query supplier time_frame in
  let data := build_data supplier query (last_scan (last_scan_data w1)) in
  attempts supplier data (range max_retries) w1.

(** Truth value of a stored result: [None] and the empty list are false. *)
Definition articles_truthy (v : option (list Article)) : bool :=
  match v with
  | Some (_ :: _) => true
  | _ => false
  end.

(** [send_email_notification]: nothing is sent unless some supplier has
    articles.  The subject takes the date, then [MIMEText(body, "plain")]
    encodes the text, outside any [try]: it raises [UnicodeEncodeError] when
    the text cannot be encoded.  Only then is the message handed to the
    mail transport, whose failures are caught.  Whether the text can be
    encoded does not depend on the order of the items (see
    [encodable_sections]), so that the order [map_to_list] gives will do. *)
Definition send_email_notification
    (results : gmap pystr (option (list Article))) (w : World)
  : result unit * World :=
  if existsb (fun kv => articles_truthy (snd kv)) (map_to_list results) then
    let (_, w1) := datetime_now w in
    if encodable (email_body (map_to_list results))
    then (Ret tt, add_notified results w1)
    else (Raise UnicodeEncodeError, w1)
  else (Ret tt, w).

(** The body of [for supplier in self.suppliers], with its [try]. *)
Definition run_supplier (supplier : Supplier)
    (all_results : gmap pystr (option (list Article))) (w : World)
  : gmap pystr (option (list Article)) * World :=
  match query_perplexity supplier w with
  | (Ret articles, w1) => (<[name supplier := articles]> all_results, sleep 1 w1)
  | (Raise _, w1) => (<[name supplier := Some []]> all_results, w1)
  end.

Fixpoint run_loop (suppliers : list Supplier)
    (all_results : gmap pystr (option (list Article))) (w : World)
  : gmap pystr (option (list Article)) * World :=
  match suppliers with
  | [] => (all_results, w)
  | supplier :: rest =>
      let (all_results', w1) := run_supplier supplier all_results w in
      run_loop rest all_results' w1
  end.

(** [run], for the supplier list [self.suppliers]. *)
Definition run (suppliers : list Supplier) (w : World)
  : result (gmap pystr (option (list Article))) * World :=
  let (all_results, w1) := run_loop suppliers ∅ w in
  let (now, w2) := datetime_now w1 in
  let w3 := set_last_scan_data (mkScanData (Some now) all_results) w2 in
  let w4 := _save_last_scan_data w3 in
  match send_email_notification all_results w4 with
  | (Ret _, w5) => (Ret all_results, w5)
  | (Raise e, w5) => (Raise e, w5)
  end.

End Monitor.

(** The configured suppliers ([CONFIG["suppliers"]]). *)
Definition default_query : pystr :=
  py "new products OR news OR announcements OR press release".

Definition edgecore : Supplier :=
  mkSupplier (py "Edgecore Networks") (py "edgecore.com") default_query.

Definition ip_infusion : Supplier :=
  mkSupplier (py "IP Infusion") (py "ipinfusion.com") default_query.

Definition CONFIG_suppliers : list Supplier :=
  [ edgecore;
    ip_infusion;
    mkSupplier (py "II-VI (Formerly Finisar)") (py "ii-vi.com") default_query;
    mkSupplier (py "Lanner Electronics") (py "lannerinc.com") default_query;
    mkSupplier (py "Smartoptics") (py "smartoptics.com") default_query;
    mkSupplier (py "Coherent") (py "coherent.com") default_query;
    mkSupplier (py "Penguin Computing") (py "penguincomputing.com") default_query ].

(** ** Notions used to state the properties *)

(** [c] is the letter [p] in either case ([p] a lower-case letter), or the
    same code point. *)
Definition same_letter (c p : N) : Prop :=
  c = p \/ ((0x61 <= p)%N /\ (p <= 0x7A)%N /\ p = (c + 32)%N).

(** [text] has an occurrence of [phrase] written in any letter case. *)
Definition contains_anycase (phrase text : pystr) : Prop :=
  exists pre v post, text = pre ++ v ++ post /\ Forall2 same_letter v phrase.

(** The three phrases of the fast path. *)
Definition no_content_phrases : list pystr :=
  [py "no new content"; py "no recent"; py "couldn't find"].

(** The accumulator, when open, is a dict with the three keys whose title
    is not empty. *)
Definition open_titled (st : PState) : Prop :=
  match current_article st with
  | Some ca => exists t s l, ca = article t s l /\ t <> []
  | None => True
  end.

(** The validity condition of an emitted article. *)
Definition valid (a : Article) : Prop :=
  (exists t, title a = Some t /\ t <> []) /\
  ((exists s, summary a = Some s /\ s <> []) \/
   (exists l, link a = Some l /\ l <> [])).

(** A lowering that leaves every code point outside ASCII as it is; the
    inputs of the examples below are ASCII. *)
Definition ascii_only : pystr -> N -> pystr -> pystr := fun _ c _ => [c].

(** The text and the article of the Edgecore scenario. *)
Definition edgecore_text : pystr :=
  py "Edgecore launches NG-OLT" ++ [10%N]
  ++ py "New line of optical line terminals." ++ [10%N]
  ++ py "https://edgecore.com/news/1" ++ [10%N].

Definition edgecore_article : Article :=
  article (py "Edgecore launches NG-OLT")
    (py "New line of optical line terminals.")
    (py "https://edgecore.com/news/1").

(** A title line followed by a link line. *)
Definition title_then_link : pystr :=
  py "Title" ++ [10%N] ++ py "https://x.y/z".

(** What [query_perplexity] returns on a decoded body. *)
Definition parsed special (supplier : Supplier) (body : json)
  : result (option (list Article)) :=
  rbind (_parse_perplexity_response special body supplier)
        (fun arts => Ret (Some arts)).

(** The phrase and the payload [query_perplexity] builds in the world [w]. *)
Definition phrase_of (w : World) : pystr := fst (build_time_frame w).

Definition payload_of (supplier : Supplier) (w : World) : Payload :=
  build_data supplier (build_query supplier (phrase_of w))
    (last_scan (last_scan_data w)).

(** The number of requests posted between two worlds. *)
Definition posted (w w' : World) : nat :=
  (length (requests_made w') - length (requests_made w))%nat.

(** The [k]-th request from the world [w] on fails with a
    [RequestException]. *)
Definition fails (w : World) (k : nat) : Prop :=
  network w (length (requests_made w) + k)%nat = Raises RequestException.

(** ** Worlds and texts of the examples *)

Definition may_21 : datetime := mkDatetime 2025 5 21 13 36 0 0.
Definition may_29 : datetime := mkDatetime 2025 5 29 13 36 0 0.

Definition title_and_summary : pystr :=
  py "Title" ++ [10%N] ++ py "* a summary".

Definition shouting : pystr := py "Sorry, I COULDN'T FIND anything.".

(** A first run (no data file) in which the network behaves as [net]. *)
Definition first_run (net : nat -> outcome) : World :=
  mkWorld net (fun _ => may_21) Written [] 0 [] empty_data Missing [].

(** Two failures, then an answer. *)
Definition fails_twice (n : nat) : outcome :=
  match n with
  | 0%nat | 1%nat => Raises RequestException
  | _ => Responds (response_of title_and_summary)
  end.

(** One failure, then a body without the key ['choices']. *)
Definition fails_once_then_empty (n : nat) : outcome :=
  match n with
  | 0%nat => Raises RequestException
  | _ => Responds (JObj [])
  end.

Definition always_fails (n : nat) : outcome := Raises RequestException.

(** Every answer is a JSON array, on which [response["choices"]] raises
    [TypeError]. *)
Definition answers_array (n : nat) : outcome := Responds (JArr []).

(** A run eight days after a scan of May 21st. *)
Definition later_run : World :=
  mkWorld always_fails (fun _ => may_29) Written [] 0 []
    (mkScanData (Some may_21) ∅) Missing [].

(** ** Notions used by the further properties *)

(** What one iteration of the loop amounts to on the states the loop can
    reach (see [loop_body_step]): a blank line and a line with a URL leave
    the state alone, a line without a bullet closes the open article and
    opens a new one, a bullet line fills the summary of the open article
    when it is still empty. *)
Definition step (st : PState) (line0 : pystr) : PState :=
  let line := strip line0 in
  if negb (truthy line) then st
  else if has_url line then st
  else if negb (is_bullet_line line)
  then mkPState (flush st) (Some (article line [] []))
  else match current_article st with
       | Some ca =>
           if get_truthy ca k_summary then st
           else mkPState (articles st)
                  (Some (setitem ca k_summary (strip (slice_from line 1))))
       | None => st
       end.

(** The lines the loop treats as titles and as bullet text. *)
Definition is_title_line (line0 : pystr) : bool :=
  truthy (strip line0) && negb (has_url (strip line0))
  && negb (is_bullet_line (strip line0)).

Definition is_text_bullet (line0 : pystr) : bool :=
  truthy (strip line0) && negb (has_url (strip line0))
  && is_bullet_line (strip line0).

(** [line0.strip()] is not empty. *)
Definition is_nonblank (line0 : pystr) : bool := truthy (strip line0).

(** The articles a state holds: those appended and the open one. *)
Definition held (st : PState) : list Article :=
  articles st ++ match current_article st with Some ca => [ca] | None => [] end.

(** An article whose title is a title line of [lines], whose summary is
    empty or the text of a bullet line of [lines], and whose link is
    empty. *)
Definition from_lines (lines : list pystr) (a : Article) : Prop :=
  (exists l, l ∈ lines /\ is_title_line l = true /\ title a = Some (strip l)) /\
  (summary a = Some [] \/
   exists l, l ∈ lines /\ is_text_bullet l = true /\
     summary a = Some (strip (slice_from (strip l) 1)) /\
     strip (slice_from (strip l) 1) <> []) /\
  link a = Some [].

(** The parts of the world a query or a scan of the suppliers does not
    touch: what the network and the clock will answer, the state kept, the
    data file and the notifications sent. *)
Definition same_store (w w' : World) : Prop :=
  network w' = network w /\ clock w' = clock w /\
  writing w' = writing w /\ last_scan_data w' = last_scan_data w /\
  data_file w' = data_file w /\ notified w' = notified w.

(** What a payload of a run must look like, given the last scan known
    when the run began and the suppliers scanned. *)
Definition payload_of_run (last : option datetime) (suppliers : list Supplier)
    (p : Payload) : Prop :=
  search_after_date_filter p = strftime_mdY <$> last /\
  search_recency_filter p = py "month" /\
  exists s, s ∈ suppliers /\ search_domain_filter p = [domain s].

(** Some supplier has an article in the mapping. *)
Definition has_articles (m : gmap pystr (option (list Article))) : Prop :=
  exists k a arts, m !! k = Some (Some (a :: arts)).

(** [run_supplier_monitor], given [CONFIG["perplexity_api_key"]] ([None]
    when the variable is not set): without a key nothing is done, with a
    key a new monitor is made and run on the configured suppliers; an
    exception of the constructor or of [run] is caught and ends the job. *)
Definition run_supplier_monitor (special : pystr -> N -> pystr -> pystr)
    (perplexity_api_key : option pystr) (w : World) : World :=
  match perplexity_api_key with
  | Some (_ :: _) =>
      match __init__ w with
      | (Ret _, w1) => snd (run special CONFIG_suppliers w1)
      | (Raise _, w1) => w1
      end
  | _ => w
  end.

(** ** Worlds of the further examples *)

(** Every request is answered with a title and a bullet line. *)
Definition answers_article (n : nat) : outcome :=
  Responds (response_of title_and_summary).

(** A world in which the data file cannot be written. *)
Definition read_only_run : World :=
  mkWorld always_fails (fun _ => may_29) OpenFails [] 0 []
    empty_data (Holds (mkScanData (Some may_21) ∅)) [].

Definition the_article : Article := article (py "Title") (py "a summary") [].

(** The notification of the mapping [m] cannot be built: some supplier
    has an article and the text cannot be encoded. *)
Definition mail_fails (m : gmap pystr (option (list Article))) : bool :=
  existsb (fun kv => articles_truthy (snd kv)) (map_to_list m)
  && negb (encodable (email_body (map_to_list m))).

(** An answer whose title starts with the lone surrogate U+D800 (in JSON,
    the escape [\ud800]). *)
Definition surrogate_answer : pystr :=
  [0xD800%N] ++ py "Title" ++ [10%N] ++ py "* a summary".

(** The first request is answered with a JSON array, the later ones with
    [surrogate_answer]. *)
Definition array_then_surrogate (n : nat) : outcome :=
  match n with
  | 0%nat => Responds (JArr [])
  | _ => Responds (response_of surrogate_answer)
  end.

(** Every request gets a reply with status 200 whose body is not JSON. *)
Definition not_json (n : nat) : outcome := outcome_of_reply (Reply 200 None).

(** Every section of the notification of [m] can be encoded. *)
Definition mail_encodable (m : gmap pystr (option (list Article))) : Prop :=
  forall k v, m !! k = Some v -> encodable (supplier_section k v) = true.

(** The requests of one supplier within a run that began with the last
    scan [last]: one to three, each with the supplier's domain, the date
    filter of [last] and the filter ["month"]. *)
Definition block_for (last : option datetime) (s : Supplier)
    (block : list Payload) : Prop :=
  (1 <= length block <= 3)%nat /\
  Forall (fun p => search_domain_filter p = [domain s] /\
                   search_after_date_filter p = strftime_mdY <$> last /\
                   search_recency_filter p = py "month") block.

(** Worlds whose data file cannot be written or read. *)
Definition cut_off_run : World :=
  mkWorld always_fails (fun _ => may_29) DumpFails [] 0 []
    empty_data (Holds (mkScanData (Some may_21) ∅)) [].

Definition unreadable_run : World :=
  mkWorld always_fails (fun _ => may_29) Written [] 0 []
    empty_data Unreadable [].

Definition not_json_file_run : World :=
  mkWorld always_fails (fun _ => may_29) Written [] 0 []
    empty_data NotJSON [].

(** Every request is answered with [surrogate_answer]. *)
Definition answers_surrogate (n : nat) : outcome :=
  Responds (response_of surrogate_answer).

(** * Properties *)

(** ** The library functions on small inputs *)

Example strip_example : strip (py "  a b   ") = py "a b".
Proof. reflexivity. Qed.

Example strip_unicode_space : strip ([0xA0; 0x2003] ++ py "x" ++ [13; 9])%N = py "x".
Proof. reflexivity. Qed.

Example split_example :
  split 10 (py "ab" ++ [10] ++ py "c" ++ [10])%N = [py "ab"; py "c"; []].
Proof. reflexivity. Qed.

Example find_example :
  find (py " ") (py "http://a b") 0 = 8 /\
  find (py " ") (py "http://a") 3 = -1 /\
  find (py "http") (py "see http://a") 0 = 4.
Proof. repeat split; reflexivity. Qed.

Example slice_example :
  slice (py "see http://a b") 4 12 = py "http://a" /\
  slice (py "abcdef") 1 (-1) = py "bcde" /\
  slice_from (py "* x") 1 = py " x".
Proof. repeat split; reflexivity. Qed.

Example lower_example :
  lower ascii_only (py "No NEW Content!") = py "no new content!".
Proof. reflexivity. Qed.

Example str_of_Z_example :
  str_of_Z 12 = py "12" /\ str_of_Z 0 = py "0" /\ str_of_Z (-3) = py "-3".
Proof. repeat split; reflexivity. Qed.

Example datetime_example :
  toordinal may_21 = 739392 /\
  timedelta_days may_29 may_21 = 8 /\
  timedelta_days (mkDatetime 2025 5 29 13 35 59 999999) may_21 = 7 /\
  timedelta_days may_21 may_29 = -8 /\
  strftime_mdY may_21 = py "05/21/2025".
Proof. repeat split; reflexivity. Qed.

Example strftime_small_year :
  strftime_mdY (mkDatetime 999 1 2 0 0 0 0) = py "01/02/999".
Proof. reflexivity. Qed.

Example reply_examples :
  outcome_of_reply (Reply 200 (Some JNull)) = Responds JNull /\
  outcome_of_reply (Reply 200 None) = Raises RequestException /\
  outcome_of_reply (Reply 503 (Some JNull)) = Raises RequestException /\
  outcome_of_reply (NoReply OtherException) = Raises OtherException.
Proof. repeat split; reflexivity. Qed.

Example surrogate_example :
  encodable (py "Title") = true /\ encodable surrogate_answer = false.
Proof. split; reflexivity. Qed.

Example bullets_example :
  _parse_perplexity_response ascii_only
    (response_of (py "Title" ++ [10%N] ++ py "* a summary" ++ [10%N]
                  ++ py "- more" ++ [10%N] ++ [bullet] ++ py " see https://x.y/z"))
    edgecore
  = Ret [article (py "Title") (py "a summary") []].
Proof. vm_compute. reflexivity. Qed.

Example malformed_example :
  _parse_perplexity_response ascii_only (JObj []) edgecore = Ret [] /\
  _parse_perplexity_response ascii_only (JArr []) edgecore = Raise TypeError /\
  _parse_perplexity_response ascii_only
    (JObj [(py "choices", JArr [])]) edgecore = Ret [] /\
  _parse_perplexity_response ascii_only
    (JObj [(py "choices",
            JArr [JObj [(py "message", JObj [(py "content", JNull)])]])])
    edgecore = Raise AttributeError.
Proof. repeat split; vm_compute; reflexivity. Qed.

(** ** Strings *)

Lemma startswith_app (p s : pystr) : startswith (p ++ s) p = true.
Proof.
  induction p as [|a p IH]; simpl; [done|].
  rewrite N.eqb_refl. exact IH.
Qed.

Lemma contains_here (sub s : pystr) :
  startswith s sub = true -> contains sub s = true.
Proof. destruct s; simpl; intros ->; done. Qed.

Lemma contains_app (sub pre post : pystr) :
  contains sub (pre ++ sub ++ post) = true.
Proof.
  induction pre as [|c pre IH]; simpl.
  - apply contains_here, startswith_app.
  - rewrite IH. apply orb_true_r.
Qed.

Lemma lower_from_app special (x y before : pystr) :
  exists z,
    lower_from special before (x ++ y)
    = z ++ lower_from special (rev x ++ before) y.
Proof.
  revert before. induction x as [|c x IH]; intros before; simpl.
  - by exists [].
  - destruct (IH (c :: before)) as [z ->].
    exists ((if (c <? 128)%N then [ascii_lower c]
             else special before c (x ++ y)) ++ z).
    replace ((rev x ++ [c]) ++ before) with (rev x ++ c :: before)
      by (by rewrite <- app_assoc).
    by rewrite <- app_assoc.
Qed.

Lemma same_letter_lower (c p : N) :
  (p < 128)%N -> ascii_lower p = p -> same_letter c p ->
  (c <? 128)%N = true /\ ascii_lower c = p.
Proof.
  intros Hp Hl [->|(H1 & H2 & ->)].
  - split; [by apply N.ltb_lt | done].
  - split; [apply N.ltb_lt; lia|].
    unfold ascii_lower.
    replace ((0x41 <=? c)%N && (c <=? 0x5A)%N) with true; [done|].
    symmetry. apply andb_true_iff. split; apply N.leb_le; lia.
Qed.

Lemma lower_from_variant special (v phrase y before : pystr) :
  Forall (fun p => (p < 128)%N /\ ascii_lower p = p) phrase ->
  Forall2 same_letter v phrase ->
  lower_from special before (v ++ y)
  = phrase ++ lower_from special (rev v ++ before) y.
Proof.
  intros Hp Hv. revert before.
  induction Hv as [|c p v phrase Hc Hv IH]; intros before; simpl; [done|].
  apply Forall_cons in Hp as [[Hp1 Hp2] Hp].
  destruct (same_letter_lower c p Hp1 Hp2 Hc) as [-> ->].
  simpl. rewrite (IH Hp), <- app_assoc. done.
Qed.

Lemma lower_contains special (phrase text : pystr) :
  Forall (fun p => (p < 128)%N /\ ascii_lower p = p) phrase ->
  contains_anycase phrase text ->
  contains phrase (lower special text) = true.
Proof.
  intros Hp (pre & v & post & -> & Hv). unfold lower.
  destruct (lower_from_app special pre (v ++ post) []) as [z ->].
  rewrite (lower_from_variant _ _ _ _ _ Hp Hv).
  apply contains_app.
Qed.

Lemma phrases_lower_ascii (phrase : pystr) :
  phrase ∈ no_content_phrases ->
  Forall (fun p => (p < 128)%N /\ ascii_lower p = p) phrase.
Proof.
  unfold no_content_phrases. rewrite !elem_of_cons, elem_of_nil.
  intros [->|[->|[->|[]]]]; repeat constructor.
Qed.

Lemma no_new_content_phrase (phrase lowered : pystr) :
  phrase ∈ no_content_phrases ->
  contains phrase lowered = true -> no_new_content lowered = true.
Proof.
  unfold no_content_phrases, no_new_content.
  rewrite !elem_of_cons, elem_of_nil.
  intros [->|[->|[->|[]]]] ->; rewrite ?orb_true_r; done.
Qed.

(** ** The fast path *)

(** C6: when the answer text has one of the three phrases in any letter
    case, the test of line 201 holds on the lowered text and the parser
    returns the empty list at once: the result is that of the [return []]
    of line 203, the lines of the text are not looked at. *)
Theorem C6_fast_path special response supplier text phrase :
  content_of response = Ret (JStr text) ->
  phrase ∈ no_content_phrases ->
  contains_anycase phrase text ->
  no_new_content (lower special text) = true /\
  _parse_perplexity_response special response supplier = Ret [].
Proof.
  intros Hc Hin Hany.
  assert (Hn : no_new_content (lower special text) = true).
  { eapply no_new_content_phrase; [exact Hin|].
    apply lower_contains; [by apply phrases_lower_ascii | exact Hany]. }
  split; [exact Hn|].
  unfold _parse_perplexity_response. rewrite Hc. simpl. rewrite Hn. done.
Qed.

(** ** The loop invariant *)

Lemma truthy_nonempty (s : pystr) : truthy s = true -> s <> [].
Proof. by destruct s. Qed.

Lemma initial_open_titled : open_titled initial.
Proof. exact I. Qed.

Lemma open_titled_article (arts : list Article) (t s l : pystr) :
  t <> [] -> open_titled (mkPState arts (Some (article t s l))).
Proof. intros Hne. simpl. by exists t, s, l. Qed.

Lemma open_titled_None (arts : list Article) :
  open_titled (mkPState arts None).
Proof. exact I. Qed.

Create HintDb inv.
#[local] Hint Resolve open_titled_article open_titled_None truthy_nonempty : inv.

(** One line keeps the invariant, raises nothing, and never takes the
    paths that need an open article without a link key or without a title. *)
Lemma loop_body_inv (st : PState) (line0 : pystr) :
  open_titled st ->
  exists st' p,
    loop_body st line0 = Ret (st', p) /\ open_titled st' /\
    p <> LinkClose /\ p <> BulletTitle /\ p <> NoBranch.
Proof.
  intros Hinv. unfold loop_body.
  destruct (truthy (strip line0)) eqn:Ht; simpl;
    [|exists st, Blank; by repeat split].
  destruct (has_url (strip line0)).
  { destruct st as [arts [ca|]]; simpl in *;
      [|exists (mkPState arts None), LinkSkip; by repeat split].
    destruct Hinv as (t & s & l & -> & Hne). simpl.
    exists (mkPState arts (Some (article t s l))), LinkSkip.
    repeat split; auto with inv. }
  destruct (is_bullet_line (strip line0)); simpl.
  2: { eexists _, NewTitle. repeat split; auto with inv. }
  destruct (has_url (strip (slice_from (strip line0) 1))).
  { destruct st as [arts [ca|]]; simpl in *;
      [|exists (mkPState arts None), BulletLinkSkip; by repeat split].
    destruct Hinv as (t & s & l & -> & Hne). simpl.
    eexists _, BulletLink.
    repeat split; auto with inv; by apply open_titled_article. }
  destruct st as [arts [ca|]]; simpl in *;
    [|exists (mkPState arts None), BulletSkip; by repeat split].
  destruct Hinv as (t & s & l & -> & Hne). simpl.
  destruct t as [|c t]; [done|]. simpl.
  destruct s as [|c' s]; simpl.
  - eexists _, BulletSummary.
    repeat split; auto with inv; by apply open_titled_article.
  - eexists _, BulletSkip.
    repeat split; auto with inv; by apply open_titled_article.
Qed.

Lemma loop_inv (lines : list pystr) (st : PState) :
  open_titled st ->
  exists st',
    loop st lines = Ret st' /\ open_titled st' /\
    length (paths st lines) = length lines /\
    Forall (fun p => p <> LinkClose /\ p <> BulletTitle /\ p <> NoBranch)
      (paths st lines).
Proof.
  revert st. induction lines as [|line rest IH]; intros st Hinv; simpl.
  - by exists st.
  - destruct (loop_body_inv st line Hinv) as (st1 & p & -> & Hinv1 & Hp).
    simpl. destruct (IH st1 Hinv1) as (st' & Hl & Hinv' & Hlen & Hall).
    exists st'. repeat split; auto.
Qed.

(** Every article appended has the three keys. *)
Lemma emitted_total (lines : list pystr) :
  exists arts, emitted lines = Ret arts.
Proof.
  unfold emitted.
  destruct (loop_inv lines initial initial_open_titled) as (st & -> & _).
  simpl. eauto.
Qed.

Lemma loop_app (pre rest : list pystr) (st : PState) :
  loop st (pre ++ rest) = rbind (loop st pre) (fun st' => loop st' rest).
Proof.
  revert st. induction pre as [|line pre IH]; intros st; simpl; [done|].
  destruct (loop_body st line) as [[st1 p]|e]; simpl; [apply IH | done].
Qed.

(** C10: at every point of the loop (after any prefix [pre] of the lines
    [pre ++ rest]) the accumulator, when it is open, holds a title that is
    not empty; no line raises, and no line takes the path that assigns a
    bullet line to ['title']. *)
Theorem C10_open_article_titled (pre rest : list pystr) :
  exists st,
    loop initial pre = Ret st /\
    loop initial (pre ++ rest) = loop st rest /\
    open_titled st /\
    length (paths initial (pre ++ rest)) = length (pre ++ rest) /\
    BulletTitle ∉ paths initial (pre ++ rest).
Proof.
  destruct (loop_inv pre initial initial_open_titled) as (st & Hl & Hinv & _).
  destruct (loop_inv (pre ++ rest) initial initial_open_titled)
    as (st' & _ & _ & Hlen & Hall).
  exists st. repeat split; try done.
  - by rewrite loop_app, Hl.
  - intros Hin. rewrite Forall_forall in Hall.
    by destruct (Hall _ Hin) as (_ & Hbt & _).
Qed.

(** ** The parser as a whole *)

Lemma parse_of_text special response supplier text :
  content_of response = Ret (JStr text) ->
  _parse_perplexity_response special response supplier
  = if no_new_content (lower special text) then Ret []
    else try_except
           (rbind (emitted (split 10 text))
              (fun arts => Ret (filter (fun a => keep a = true) arts)))
           caught_by_parser (Ret []).
Proof.
  intros Hc. unfold _parse_perplexity_response. rewrite Hc. simpl.
  by destruct (no_new_content (lower special text)).
Qed.

(** C8: on a response whose content is a string, whatever the string, the
    parser raises nothing and returns a list of articles. *)
Theorem C8_parser_total special response supplier text :
  content_of response = Ret (JStr text) ->
  exists arts, _parse_perplexity_response special response supplier = Ret arts.
Proof.
  intros Hc. rewrite (parse_of_text _ _ _ _ Hc).
  destruct (no_new_content (lower special text)); [by exists []|].
  destruct (emitted_total (split 10 text)) as [arts ->]. simpl. eauto.
Qed.

Lemma keep_valid (a : Article) : keep a = true -> valid a.
Proof.
  unfold keep, valid, get_truthy. destruct a as [t s l]; simpl.
  intros [Ht Hsl]%andb_true_iff. split.
  - destruct t as [t|]; [|done]. exists t. split; [done|].
    by apply truthy_nonempty.
  - apply orb_true_iff in Hsl as [H|H].
    + left. destruct s as [s|]; [|done]. exists s. split; [done|].
      by apply truthy_nonempty.
    + right. destruct l as [l|]; [|done]. exists l. split; [done|].
      by apply truthy_nonempty.
Qed.

(** C7: every article the parser returns has a title that is not empty and
    a summary or a link that is not empty. *)
Theorem C7_returned_articles_valid special response supplier arts a :
  _parse_perplexity_response special response supplier = Ret arts ->
  a ∈ arts -> valid a.
Proof.
  unfold _parse_perplexity_response, try_except. intros Hp Hin.
  destruct (content_of response) as [content|e]; simpl in Hp.
  2: { destruct (caught_by_parser e); [|done].
       injection Hp as <-. by apply elem_of_nil in Hin. }
  destruct (lower_method special content) as [lowered|e]; simpl in Hp.
  2: { destruct (caught_by_parser e); [|done].
       injection Hp as <-. by apply elem_of_nil in Hin. }
  destruct (no_new_content lowered).
  { injection Hp as <-. by apply elem_of_nil in Hin. }
  destruct (split_method content 10) as [lines|e]; simpl in Hp.
  2: { destruct (caught_by_parser e); [|done].
       injection Hp as <-. by apply elem_of_nil in Hin. }
  destruct (emitted lines) as [all|e]; simpl in Hp.
  2: { destruct (caught_by_parser e); [|done].
       injection Hp as <-. by apply elem_of_nil in Hin. }
  injection Hp as <-.
  apply list_elem_of_filter in Hin as [Hk _]. by apply keep_valid.
Qed.

(** ** The scenario of the Edgecore announcement *)

(** C1, as stated, fails: the parser does not return the one article of
    the scenario. *)
Lemma C1_edgecore_not_one_article :
  _parse_perplexity_response ascii_only (response_of edgecore_text) edgecore
  <> Ret [edgecore_article].
Proof. vm_compute. discriminate. Qed.

(** C1, amended: the two lines without a bullet each open an article of
    their own.  Before the filter there are two articles, the first titled
    by the first line with an empty summary and an empty link, the second
    titled by the second line with an empty summary; the filter drops the
    first, so that every article returned is titled by the second line and
    has no summary. *)
Theorem C1_edgecore_two_titles special supplier :
  exists a1 a2 arts,
    emitted (split 10 edgecore_text) = Ret [a1; a2] /\
    a1 = article (py "Edgecore launches NG-OLT") [] [] /\
    title a2 = Some (py "New line of optical line terminals.") /\
    summary a2 = Some [] /\
    keep a1 = false /\
    _parse_perplexity_response special (response_of edgecore_text) supplier
    = Ret arts /\
    arts = filter (fun a => keep a = true) [a2] /\
    edgecore_article ∉ arts.
Proof.
  eexists _, _, _. split; [vm_compute; reflexivity|].
  repeat split; try reflexivity.
  vm_compute. apply not_elem_of_nil.
Qed.

(** ** Link lines *)

(** C2 fails on the code: a link line met while an article is open with an
    empty link leaves the article as it is and open.  On the text
    [Title], [https://x.y/z] the second line takes the path that changes
    nothing, the article keeps its empty link and the filter drops it.  The
    path that attaches the link and closes the article is taken by no line
    of any text, because an open article always has the key ['link']. *)
Theorem C2_link_line_changes_nothing special supplier :
  paths initial (split 10 title_then_link) = [NewTitle; LinkSkip] /\
  loop initial (split 10 title_then_link)
  = Ret (mkPState [] (Some (article (py "Title") [] []))) /\
  _parse_perplexity_response special (response_of title_then_link) supplier
  = Ret [] /\
  forall lines : list pystr, LinkClose ∉ paths initial lines.
Proof.
  split; [vm_compute; reflexivity|].
  split; [vm_compute; reflexivity|].
  split; [vm_compute; reflexivity|].
  intros lines Hin.
  destruct (loop_inv lines initial initial_open_titled) as (st & _ & _ & _ & Hall).
  rewrite Forall_forall in Hall. by destruct (Hall _ Hin) as (Hlc & _).
Qed.

(** ** The retry loop *)

Lemma build_time_frame_world (w : World) :
  let w1 := snd (build_time_frame w) in
  network w1 = network w /\ requests_made w1 = requests_made w /\
  slept w1 = slept w /\ last_scan_data w1 = last_scan_data w /\
  writing w1 = writing w.
Proof.
  unfold build_time_frame. by destruct (last_scan (last_scan_data w)).
Qed.

Lemma attempts_step special supplier data attempt rest w :
  attempts special supplier data (attempt :: rest) w
  = match network w (length (requests_made w)) with
    | Responds body => (parsed special supplier body, snd (post data w))
    | Raises e =>
        if bool_decide (e = RequestException) then
          if attempt <? max_retries - 1
          then attempts special supplier data rest
                 (sleep (2 ^ attempt) (snd (post data w)))
          else (Ret (Some []), snd (post data w))
        else (Raise e, snd (post data w))
    end.
Proof. reflexivity. Qed.

Lemma range_max_retries : range max_retries = [0; 1; 2].
Proof. reflexivity. Qed.

(** The loop over the three attempts, unrolled. *)
Lemma attempts_three special supplier data w :
  let base := length (requests_made w) in
  let w1 := snd (post data w) in
  let w2 := snd (post data (sleep 1 w1)) in
  let w3 := snd (post data (sleep 2 w2)) in
  attempts special supplier data [0; 1; 2] w
  = match network w base with
    | Responds b => (parsed special supplier b, w1)
    | Raises e0 =>
        if bool_decide (e0 = RequestException) then
          match network w (S base) with
          | Responds b => (parsed special supplier b, w2)
          | Raises e1 =>
              if bool_decide (e1 = RequestException) then
                match network w (S (S base)) with
                | Responds b => (parsed special supplier b, w3)
                | Raises e2 =>
                    if bool_decide (e2 = RequestException)
                    then (Ret (Some []), w3) else (Raise e2, w3)
                end
              else (Raise e1, w2)
          end
        else (Raise e0, w1)
    end.
Proof.
  intros base w1 w2 w3. rewrite attempts_step. fold base.
  destruct (network w base) as [b|e0]; [done|].
  destruct (bool_decide (e0 = RequestException)); [|done].
  change (0 <? max_retries - 1) with true. cbv iota.
  rewrite attempts_step.
  change (network (sleep (2 ^ 0) (snd (post data w)))) with (network w).
  change (requests_made (sleep (2 ^ 0) (snd (post data w))))
    with (requests_made w ++ [data]).
  rewrite length_app, Nat.add_1_r. fold base.
  destruct (network w (S base)) as [b|e1]; [done|].
  destruct (bool_decide (e1 = RequestException)); [|done].
  change (1 <? max_retries - 1) with true. cbv iota.
  rewrite attempts_step.
  change (network (sleep (2 ^ 1) (snd (post data (sleep (2 ^ 0) (snd (post data w)))))))
    with (network w).
  change (requests_made (sleep (2 ^ 1) (snd (post data (sleep (2 ^ 0) (snd (post data w)))))))
    with ((requests_made w ++ [data]) ++ [data]).
  rewrite !length_app, !Nat.add_1_r. fold base.
  destruct (network w (S (S base))) as [b|e2]; [done|].
  destruct (bool_decide (e2 = RequestException)); [|done].
  done.
Qed.

Lemma query_perplexity_attempts special supplier w :
  query_perplexity special supplier w
  = attempts special supplier (payload_of supplier w) [0; 1; 2]
      (snd (build_time_frame w)).
Proof.
  unfold query_perplexity, payload_of, phrase_of.
  pose proof (build_time_frame_world w) as (_ & _ & _ & Hd & _).
  destruct (build_time_frame w) as [tf w1]. cbn [fst snd] in *.
  by rewrite range_max_retries, Hd.
Qed.

(** What one call does, by the outcomes of the requests it makes: the value
    returned, the payloads posted and the sleeps. *)
Lemma query_perplexity_cases special supplier w :
  let q := query_perplexity special supplier w in
  let base := length (requests_made w) in
  let data := payload_of supplier w in
  let after (r : result (option (list Article))) (n : nat) (naps : list Z) :=
    fst q = r /\
    requests_made (snd q) = requests_made w ++ replicate n data /\
    slept (snd q) = slept w ++ naps in
  match network w base with
  | Responds b => after (parsed special supplier b) 1%nat []
  | Raises e0 =>
      if bool_decide (e0 = RequestException) then
        match network w (S base) with
        | Responds b => after (parsed special supplier b) 2%nat [1]
        | Raises e1 =>
            if bool_decide (e1 = RequestException) then
              match network w (S (S base)) with
              | Responds b => after (parsed special supplier b) 3%nat [1; 2]
              | Raises e2 =>
                  if bool_decide (e2 = RequestException)
                  then after (Ret (Some [])) 3%nat [1; 2]
                  else after (Raise e2) 3%nat [1; 2]
              end
            else after (Raise e1) 2%nat [1]
        end
      else after (Raise e0) 1%nat []
  end.
Proof.
  intros q base data after. subst q after. cbv beta.
  rewrite query_perplexity_attempts, attempts_three.
  pose proof (build_time_frame_world w) as (Hn & Hr & Hs & _).
  cbv zeta in Hn, Hr, Hs. rewrite Hn, Hr. fold base. fold data.
  destruct (network w base) as [b|e0].
  { cbn [fst snd post sleep requests_made slept].
    rewrite Hr, Hs, app_nil_r. done. }
  destruct (bool_decide (e0 = RequestException)).
  2: { cbn [fst snd post sleep requests_made slept].
       rewrite Hr, Hs, app_nil_r. done. }
  destruct (network w (S base)) as [b|e1].
  { cbn [fst snd post sleep requests_made slept].
    rewrite Hr, Hs, <- app_assoc. done. }
  destruct (bool_decide (e1 = RequestException)).
  2: { cbn [fst snd post sleep requests_made slept].
       rewrite Hr, Hs, <- app_assoc. done. }
  destruct (network w (S (S base))) as [b|e2].
  { cbn [fst snd post sleep requests_made slept].
    rewrite Hr, Hs, <- !app_assoc. done. }
  destruct (bool_decide (e2 = RequestException));
    cbn [fst snd post sleep requests_made slept];
    rewrite Hr, Hs, <- !app_assoc; done.
Qed.

Lemma posted_replicate (w w' : World) (n : nat) (data : Payload) :
  requests_made w' = requests_made w ++ replicate n data -> posted w w' = n.
Proof.
  intros H. unfold posted. rewrite H, length_app, length_replicate. lia.
Qed.

Ltac counted n :=
  match goal with
  | Hp : posted _ _ = _, Hs : slept _ = _ |- _ =>
      exists n; rewrite Hp, Hs; split_and!; [lia | lia | done | done]
  end.

(** C3: a call posts one, two or three requests; after each request but
    the last one made it has slept [2 ^ attempt] (1 after attempt 0, 2 after
    attempt 1); when the first two requests fail and the third is answered
    the call returns what the parser makes of the answer, after sleeps of 1
    and 2; when all three fail the call has posted exactly three requests,
    slept 1 and 2, and returns the empty list: no exception leaves it. *)
Theorem C3_retry_policy special supplier w :
  let q := query_perplexity special supplier w in
  (exists n, (1 <= n <= 3)%nat /\ posted w (snd q) = n /\
     slept (snd q) = slept w ++ map (Z.pow 2) (range (Z.of_nat n - 1))) /\
  (forall body,
     fails w 0 -> fails w 1 ->
     network w (length (requests_made w) + 2)%nat = Responds body ->
     fst q = parsed special supplier body /\
     posted w (snd q) = 3%nat /\ slept (snd q) = slept w ++ [1; 2]) /\
  (fails w 0 -> fails w 1 -> fails w 2 ->
     fst q = Ret (Some []) /\
     posted w (snd q) = 3%nat /\ slept (snd q) = slept w ++ [1; 2]).
Proof.
  intros q.
  pose proof (query_perplexity_cases special supplier w) as H.
  cbv zeta beta in H. fold q in H. unfold fails.
  rewrite Nat.add_0_r, Nat.add_1_r.
  replace (length (requests_made w) + 2)%nat
    with (S (S (length (requests_made w)))) by lia.
  destruct (network w (length (requests_made w))) as [b0|e0].
  { destruct H as (Hr & Hp%posted_replicate & Hs).
    split; [counted 1%nat|]. by split. }
  case_bool_decide as He0.
  2: { destruct H as (Hr & Hp%posted_replicate & Hs).
       split; [counted 1%nat|].
       split; [intros ? [=]|intros [=]]; done. }
  destruct (network w (S (length (requests_made w)))) as [b1|e1].
  { destruct H as (Hr & Hp%posted_replicate & Hs).
    split; [counted 2%nat|]. by split. }
  case_bool_decide as He1.
  2: { destruct H as (Hr & Hp%posted_replicate & Hs).
       split; [counted 2%nat|].
       split; [intros ? _ [=]|intros _ [=]]; done. }
  destruct (network w (S (S (length (requests_made w))))) as [b2|e2].
  { destruct H as (Hr & Hp%posted_replicate & Hs).
    split; [counted 3%nat|].
    split; [intros ? _ _ [= <-]|intros _ _ [=]]; done. }
  case_bool_decide as He2.
  - destruct H as (Hr & Hp%posted_replicate & Hs).
    split; [counted 3%nat|].
    split; [intros ? _ _ [=]|intros _ _ _]; done.
  - destruct H as (Hr & Hp%posted_replicate & Hs).
    split; [counted 3%nat|].
    split; [intros ? _ _ [=]|intros _ _ [=]]; done.
Qed.

(** When a request is answered with a decoded body, whatever the body
    and whatever the parser makes of it (articles, the empty list for a body
    without the expected keys, or an exception of its own), that request is
    the last one of the call: with [k] failed requests before it, [k + 1]
    requests are posted in all and the call ends with the parser's result. *)
Lemma no_retry_after_response special supplier w k body :
  (k < 3)%nat ->
  (forall i, (i < k)%nat -> fails w i) ->
  network w (length (requests_made w) + k)%nat = Responds body ->
  let q := query_perplexity special supplier w in
  posted w (snd q) = S k /\ fst q = parsed special supplier body.
Proof.
  intros Hk Hfail Hbody q.
  pose proof (query_perplexity_cases special supplier w) as H.
  cbv zeta beta in H. fold q in H.
  assert (H0 : (0 < k)%nat -> network w (length (requests_made w))
                              = Raises RequestException).
  { intros Hlt. specialize (Hfail 0%nat Hlt). unfold fails in Hfail.
    by rewrite Nat.add_0_r in Hfail. }
  assert (H1 : (1 < k)%nat -> network w (S (length (requests_made w)))
                              = Raises RequestException).
  { intros Hlt. specialize (Hfail 1%nat Hlt). unfold fails in Hfail.
    by rewrite Nat.add_1_r in Hfail. }
  destruct k as [|[|[|k]]]; [| | |lia].
  - rewrite Nat.add_0_r in Hbody. rewrite Hbody in H.
    destruct H as (Hr & Hp%posted_replicate & _). done.
  - rewrite Nat.add_1_r in Hbody. rewrite H0, Hbody in H by lia.
    rewrite bool_decide_eq_true_2 in H by done.
    destruct H as (Hr & Hp%posted_replicate & _). done.
  - replace (length (requests_made w) + 2)%nat
      with (S (S (length (requests_made w)))) in Hbody by lia.
    rewrite H0, H1, Hbody in H by lia.
    rewrite !bool_decide_eq_true_2 in H by done.
    destruct H as (Hr & Hp%posted_replicate & _). done.
Qed.

(** A request that fails is followed by another one, unless it is the
    third: then the call ends with the empty list. *)
Lemma retry_after_failure special supplier w k :
  (k < 3)%nat ->
  (forall i, (i <= k)%nat -> fails w i) ->
  let q := query_perplexity special supplier w in
  ((k < 2)%nat -> (S (S k) <= posted w (snd q))%nat) /\
  (k = 2%nat -> posted w (snd q) = 3%nat /\ fst q = Ret (Some [])).
Proof.
  intros Hk Hfail q.
  pose proof (query_perplexity_cases special supplier w) as H.
  cbv zeta beta in H. fold q in H.
  assert (H0 : network w (length (requests_made w)) = Raises RequestException).
  { specialize (Hfail 0%nat ltac:(lia)). unfold fails in Hfail.
    by rewrite Nat.add_0_r in Hfail. }
  assert (H1 : (1 <= k)%nat -> network w (S (length (requests_made w)))
                               = Raises RequestException).
  { intros Hle. specialize (Hfail 1%nat Hle). unfold fails in Hfail.
    by rewrite Nat.add_1_r in Hfail. }
  assert (H2 : (2 <= k)%nat -> network w (S (S (length (requests_made w))))
                               = Raises RequestException).
  { intros Hle. specialize (Hfail 2%nat Hle). unfold fails in Hfail.
    replace (length (requests_made w) + 2)%nat
      with (S (S (length (requests_made w)))) in Hfail by lia. done. }
  rewrite H0, bool_decide_eq_true_2 in H by done.
  destruct k as [|[|[|k]]]; [| | |lia].
  - split; [intros _|lia].
    repeat (destruct (network w _) as [?|?] in H || case_bool_decide);
      destruct H as (_ & Hp%posted_replicate & _); lia.
  - rewrite H1, bool_decide_eq_true_2 in H by (done || lia).
    split; [intros _|lia].
    repeat (destruct (network w _) as [?|?] in H || case_bool_decide);
      destruct H as (_ & Hp%posted_replicate & _); lia.
  - rewrite H1, bool_decide_eq_true_2 in H by (done || lia).
    rewrite H2, bool_decide_eq_true_2 in H by (done || lia).
    destruct H as (Hr & Hp%posted_replicate & _).
    split; [lia|done].
Qed.

(** C4, as stated, fails: a reply with status 200 whose body is not JSON
    is followed by further requests; the call posts three requests and
    sleeps 1 and 2 between them. *)
Lemma C4_not_json_is_retried :
  network (first_run not_json) 0 = outcome_of_reply (Reply 200 None) /\
  posted (first_run not_json)
    (snd (query_perplexity ascii_only edgecore (first_run not_json)))
  = 3%nat /\
  slept (snd (query_perplexity ascii_only edgecore (first_run not_json)))
  = [1; 2].
Proof. split_and!; vm_compute; reflexivity. Qed.

(** C4, amended: a request answered with a successful status and a body
    that is JSON is the last one of the call, whatever the parser makes of
    the decoded body: with [k] failed requests before it, [k + 1] requests
    are posted in all and the call ends with the parser's result.  A
    request answered with a successful status and a body that is not JSON
    counts as failed: another request follows, unless it was the third,
    after which the call returns the empty list. *)
Theorem C4_retry_unless_decoded special supplier w k status body :
  (k < 3)%nat ->
  (forall i, (i < k)%nat -> fails w i) ->
  200 <= status < 300 ->
  network w (length (requests_made w) + k)%nat
  = outcome_of_reply (Reply status body) ->
  let q := query_perplexity special supplier w in
  match body with
  | Some decoded =>
      posted w (snd q) = S k /\ fst q = parsed special supplier decoded
  | None =>
      ((k < 2)%nat -> (S (S k) <= posted w (snd q))%nat) /\
      (k = 2%nat -> posted w (snd q) = 3%nat /\ fst q = Ret (Some []))
  end.
Proof.
  intros Hk Hfail Hstatus Hreply q. unfold outcome_of_reply in Hreply.
  replace ((400 <=? status) && (status <? 600)) with false in Hreply
    by (symmetry; apply andb_false_iff; left; apply Z.leb_gt; lia).
  destruct body as [decoded|].
  - by apply no_retry_after_response.
  - apply retry_after_failure; [done|].
    intros i Hi. destruct (decide (i = k)) as [->|Hne]; [exact Hreply|].
    apply Hfail. lia.
Qed.

(** ** The query *)

Lemma phrase_of_Some (w : World) (d : datetime) :
  last_scan (last_scan_data w) = Some d ->
  phrase_of w
  = time_frame_of_days (timedelta_days (clock w (clock_reads w)) d).
Proof. unfold phrase_of, build_time_frame. by intros ->. Qed.

Lemma phrase_of_None (w : World) :
  last_scan (last_scan_data w) = None -> phrase_of w = [].
Proof. unfold phrase_of, build_time_frame. by intros ->. Qed.

(** C5: every request of a call carries the same payload, whose user
    message is the instruction with the phrase in it, after the domain;
    without a last scan the phrase is empty and the payload has no
    [search_after_date_filter]; with a last scan [d], and [days] the whole
    days from [d] to now, the phrase is "in the last day" for 0 or 1,
    "in the last week" for 2 to 7 and "in the last N days" above, and the
    payload's [search_after_date_filter] is the month (two digits), the day
    (two digits) and the year of [d], separated by slashes. *)
Theorem C5_time_frame special supplier w :
  let data := payload_of supplier w in
  let q := query_perplexity special supplier w in
  (exists n, requests_made (snd q) = requests_made w ++ replicate (S n) data) /\
  user_content data
  = py "Find " ++ query supplier ++ py " from " ++ domain supplier ++ py " "
    ++ phrase_of w
    ++ py ". Focus only on new content published since yesterday. Format each result with the title, a brief summary, and the URL." /\
  match last_scan (last_scan_data w) with
  | None => phrase_of w = [] /\ search_after_date_filter data = None
  | Some d =>
      let days := timedelta_days (clock w (clock_reads w)) d in
      ((days = 0 \/ days = 1) -> phrase_of w = py "in the last day") /\
      (2 <= days <= 7 -> phrase_of w = py "in the last week") /\
      (7 < days ->
       phrase_of w = py "in the last " ++ str_of_Z days ++ py " days") /\
      search_after_date_filter data
      = Some (zero_padded 2 (month d) ++ py "/" ++ zero_padded 2 (day d)
              ++ py "/" ++ str_of_Z (year d))
  end.
Proof.
  intros data q. split; [|split; [reflexivity|]].
  - pose proof (query_perplexity_cases special supplier w) as H.
    cbv zeta beta in H. fold q data in H.
    repeat (destruct (network w _) as [?|?] in H || case_bool_decide);
      destruct H as (_ & -> & _); by eauto.
  - destruct (last_scan (last_scan_data w)) as [d|] eqn:E.
    + cbv zeta. rewrite (phrase_of_Some w d E).
      unfold time_frame_of_days, data, payload_of, build_data. rewrite E.
      split_and!; [intros [-> | ->]; reflexivity | intros H | intros H | reflexivity].
      * destruct (Z.leb_spec (timedelta_days (clock w (clock_reads w)) d) 1); [lia|].
        destruct (Z.leb_spec (timedelta_days (clock w (clock_reads w)) d) 7); [done|lia].
      * destruct (Z.leb_spec (timedelta_days (clock w (clock_reads w)) d) 1); [lia|].
        destruct (Z.leb_spec (timedelta_days (clock w (clock_reads w)) d) 7); [lia|done].
    + split; [by apply phrase_of_None|].
      unfold data, payload_of, build_data. by rewrite E.
Qed.

(** ** The scan *)

Lemma attempts_writing special supplier data todo w :
  writing (snd (attempts special supplier data todo w)) = writing w.
Proof.
  revert w. induction todo as [|attempt rest IH]; intros w; [done|].
  rewrite attempts_step.
  destruct (network w (length (requests_made w))) as [b|e]; [done|].
  case_bool_decide; [|done].
  destruct (attempt <? max_retries - 1); [by rewrite IH | done].
Qed.

Lemma query_perplexity_writing special supplier w :
  writing (snd (query_perplexity special supplier w)) = writing w.
Proof.
  rewrite query_perplexity_attempts, attempts_writing.
  by pose proof (build_time_frame_world w) as (_ & _ & _ & _ & ->).
Qed.

Lemma run_supplier_writing special supplier acc w :
  writing (snd (run_supplier special supplier acc w)) = writing w.
Proof.
  unfold run_supplier.
  pose proof (query_perplexity_writing special supplier w) as H.
  by destruct (query_perplexity special supplier w) as [[r|e] w1].
Qed.

Lemma run_supplier_raises special supplier acc w e :
  fst (query_perplexity special supplier w) = Raise e ->
  run_supplier special supplier acc w
  = (<[name supplier := Some []]> acc,
     snd (query_perplexity special supplier w)).
Proof.
  unfold run_supplier.
  destruct (query_perplexity special supplier w) as [[r|e'] w1]; by intros [=].
Qed.

Lemma run_supplier_own_key special supplier acc w :
  is_Some (fst (run_supplier special supplier acc w) !! name supplier).
Proof.
  unfold run_supplier.
  destruct (query_perplexity special supplier w) as [[r|e] w1];
    cbn [fst]; rewrite lookup_insert_eq; eauto.
Qed.

Lemma run_supplier_other_key special supplier acc w (k : pystr) :
  k <> name supplier ->
  fst (run_supplier special supplier acc w) !! k = acc !! k.
Proof.
  intros Hne. unfold run_supplier.
  destruct (query_perplexity special supplier w) as [[r|e] w1];
    cbn [fst]; by rewrite lookup_insert_ne.
Qed.

Lemma run_supplier_keeps_key special supplier acc w (k : pystr) :
  is_Some (acc !! k) ->
  is_Some (fst (run_supplier special supplier acc w) !! k).
Proof.
  intros Hk. destruct (decide (k = name supplier)) as [->|Hne].
  - apply run_supplier_own_key.
  - by rewrite run_supplier_other_key.
Qed.

Lemma run_loop_cons special supplier rest acc w :
  run_loop special (supplier :: rest) acc w
  = run_loop special rest (fst (run_supplier special supplier acc w))
      (snd (run_supplier special supplier acc w)).
Proof.
  cbn [run_loop]. by destruct (run_supplier special supplier acc w).
Qed.

Lemma run_loop_app special pre rest acc w :
  run_loop special (pre ++ rest) acc w
  = run_loop special rest (fst (run_loop special pre acc w))
      (snd (run_loop special pre acc w)).
Proof.
  revert acc w. induction pre as [|s pre IH]; intros acc w; [done|].
  cbn [app]. by rewrite !run_loop_cons, IH.
Qed.

Lemma run_loop_writing special suppliers acc w :
  writing (snd (run_loop special suppliers acc w)) = writing w.
Proof.
  revert acc w. induction suppliers as [|s rest IH]; intros acc w; [done|].
  by rewrite run_loop_cons, IH, run_supplier_writing.
Qed.

Lemma run_loop_keeps_key special suppliers acc w (k : pystr) :
  is_Some (acc !! k) ->
  is_Some (fst (run_loop special suppliers acc w) !! k).
Proof.
  revert acc w. induction suppliers as [|s rest IH]; intros acc w Hk; [done|].
  rewrite run_loop_cons. by apply IH, run_supplier_keeps_key.
Qed.

Lemma run_loop_every_key special suppliers acc w (s : Supplier) :
  s ∈ suppliers ->
  is_Some (fst (run_loop special suppliers acc w) !! name s).
Proof.
  revert acc w. induction suppliers as [|s' rest IH]; intros acc w Hin.
  - by apply elem_of_nil in Hin.
  - rewrite run_loop_cons. apply elem_of_cons in Hin as [->|Hin].
    + apply run_loop_keeps_key, run_supplier_own_key.
    + by apply IH.
Qed.

Lemma run_loop_other_key special suppliers acc w (k : pystr) :
  k ∉ map name suppliers ->
  fst (run_loop special suppliers acc w) !! k = acc !! k.
Proof.
  revert acc w. induction suppliers as [|s rest IH]; intros acc w Hk; [done|].
  cbn [map] in Hk. apply not_elem_of_cons in Hk as [Hne Hk].
  by rewrite run_loop_cons, IH, run_supplier_other_key.
Qed.

(** ** Whether the notification can be encoded *)

Lemma encodable_app (a b : pystr) :
  encodable (a ++ b) = encodable a && encodable b.
Proof. unfold encodable. by rewrite existsb_app, negb_orb. Qed.

Lemma encodable_flat_map {A} (f : A -> pystr) (items : list A) :
  encodable (flat_map f items) = forallb (fun x => encodable (f x)) items.
Proof.
  induction items as [|x items IH]; [done|].
  cbn [flat_map forallb]. by rewrite encodable_app, IH.
Qed.

(** The text can be encoded exactly when each section can: the order of
    the items plays no part. *)
Lemma encodable_sections (items : list (pystr * option (list Article))) :
  encodable (email_body items)
  = forallb (fun kv => encodable (supplier_section (fst kv) (snd kv))) items.
Proof.
  unfold email_body. rewrite !encodable_app, encodable_flat_map.
  reflexivity.
Qed.

Lemma mail_of_encodable_sections (m : gmap pystr (option (list Article))) :
  (forall k v, m !! k = Some v -> encodable (supplier_section k v) = true) ->
  mail_fails m = false.
Proof.
  intros Hall. unfold mail_fails.
  replace (encodable (email_body (map_to_list m))) with true;
    [apply andb_false_r|].
  symmetry. rewrite encodable_sections. apply forallb_forall.
  intros [k v] Hin%list_elem_of_In%elem_of_map_to_list. by apply Hall.
Qed.

(** The end of [run]: what is returned, kept and written. *)
Lemma run_end special suppliers w :
  let q := run special suppliers w in
  let l := run_loop special suppliers ∅ w in
  fst q = (if mail_fails (fst l) then Raise UnicodeEncodeError
           else Ret (fst l)) /\
  last_scan (last_scan_data (snd q))
  = Some (clock (snd l) (clock_reads (snd l))) /\
  results (last_scan_data (snd q)) = fst l /\
  (writing w = Written ->
   data_file (snd q) = Holds (last_scan_data (snd q))).
Proof.
  intros q l. subst q. unfold run, mail_fails.
  pose proof (run_loop_writing special suppliers ∅ w) as Hw.
  fold l in Hw |- *. destruct l as [all_results w1].
  cbn [fst snd] in *. unfold datetime_now, set_last_scan_data,
    _save_last_scan_data, send_email_notification.
  cbn [writing]. rewrite Hw.
  destruct (writing w);
    destruct (existsb _ (map_to_list all_results));
    destruct (encodable (email_body (map_to_list all_results)));
    cbn; by repeat split.
Qed.

(** C9, as stated, fails: with a first supplier whose pipeline raises and
    a second one whose answer holds a lone surrogate, [run] does not return
    a mapping; building the notification raises [UnicodeEncodeError]. *)
Lemma C9_run_raises_after_failing_supplier :
  fst (query_perplexity ascii_only edgecore (first_run array_then_surrogate))
  = Raise TypeError /\
  fst (run ascii_only [edgecore; ip_infusion] (first_run array_then_surrogate))
  = Raise UnicodeEncodeError.
Proof. split; vm_compute; reflexivity. Qed.

(** C9, amended: when [query_perplexity] raises for the supplier [s]
    (after the suppliers [pre], before the suppliers [post]), the loop
    records the empty list under the name of [s] and goes on with [post]
    from there; the mapping accumulated has an entry for every supplier
    and, unless a later supplier has the same name, the empty list for [s];
    the state kept has its last-scan time set and holds the mapping, and it
    is what the data file holds when the file can be written.  [run] then
    returns the mapping, or raises [UnicodeEncodeError] from the building
    of the notification; it returns the mapping whenever the section of
    every entry can be encoded. *)
Theorem C9_failing_supplier special pre s post w e :
  let before := run_loop special pre ∅ w in
  fst (query_perplexity special s (snd before)) = Raise e ->
  let q := run special (pre ++ s :: post) w in
  let all_results := fst (run_loop special (pre ++ s :: post) ∅ w) in
  run_loop special (pre ++ s :: post) ∅ w
  = run_loop special post (<[name s := Some []]> (fst before))
      (snd (query_perplexity special s (snd before))) /\
  (name s ∉ map name post -> all_results !! name s = Some (Some [])) /\
  (forall s', s' ∈ pre ++ s :: post -> is_Some (all_results !! name s')) /\
  is_Some (last_scan (last_scan_data (snd q))) /\
  results (last_scan_data (snd q)) = all_results /\
  (writing w = Written ->
   data_file (snd q) = Holds (last_scan_data (snd q))) /\
  (fst q = Ret all_results \/ fst q = Raise UnicodeEncodeError) /\
  ((forall k v, all_results !! k = Some v ->
                encodable (supplier_section k v) = true) ->
   fst q = Ret all_results).
Proof.
  intros before Hraise q all_results.
  pose proof (run_end special (pre ++ s :: post) w) as (Hq & Hls & Hres & Hfile).
  fold q all_results in Hq, Hls, Hres, Hfile.
  assert (Hloop : run_loop special (pre ++ s :: post) ∅ w
    = run_loop special post (<[name s := Some []]> (fst before))
        (snd (query_perplexity special s (snd before)))).
  { rewrite run_loop_app, run_loop_cons. fold before.
    by rewrite (run_supplier_raises _ _ _ _ e Hraise). }
  split_and!.
  - exact Hloop.
  - intros Hfresh. unfold all_results.
    rewrite Hloop, run_loop_other_key by done. apply lookup_insert_eq.
  - intros s' Hin. by apply run_loop_every_key.
  - rewrite Hls. eauto.
  - exact Hres.
  - exact Hfile.
  - rewrite Hq. destruct (mail_fails all_results); auto.
  - intros Hall. by rewrite Hq, (mail_of_encodable_sections _ Hall).
Qed.

(** ** Instances *)

Lemma C9_failing_supplier_witness :
  fst (run_loop ascii_only [edgecore; ip_infusion] ∅
         (first_run answers_array)) !! name edgecore = Some (Some []) /\
  (fst (run ascii_only [edgecore; ip_infusion] (first_run answers_array))
   = Ret (fst (run_loop ascii_only [edgecore; ip_infusion] ∅
                 (first_run answers_array)))
   \/ fst (run ascii_only [edgecore; ip_infusion] (first_run answers_array))
      = Raise UnicodeEncodeError).
Proof.
  destruct (C9_failing_supplier ascii_only [] edgecore [ip_infusion]
              (first_run answers_array) TypeError)
    as (_ & H & _ & _ & _ & _ & Hret & _).
  - vm_compute. reflexivity.
  - split; [|exact Hret].
    apply H. cbn [map]. intros Hin%list_elem_of_singleton. discriminate Hin.
Defined.

Lemma C3_retry_policy_witness :
  fst (query_perplexity ascii_only edgecore (first_run fails_twice))
  = Ret (Some [article (py "Title") (py "a summary") []]) /\
  slept (snd (query_perplexity ascii_only edgecore (first_run fails_twice)))
  = [1; 2] /\
  fst (query_perplexity ascii_only edgecore (first_run always_fails))
  = Ret (Some []) /\
  posted (first_run always_fails)
    (snd (query_perplexity ascii_only edgecore (first_run always_fails)))
  = 3%nat.
Proof.
  destruct (C3_retry_policy ascii_only edgecore (first_run fails_twice))
    as (_ & Hb & _).
  destruct (Hb (response_of title_and_summary)) as (Hr & _ & Hs);
    [reflexivity | reflexivity | reflexivity |].
  destruct (C3_retry_policy ascii_only edgecore (first_run always_fails))
    as (_ & _ & Hc).
  destruct Hc as (Hr' & Hp' & _); [reflexivity | reflexivity | reflexivity |].
  split_and!; [by rewrite Hr | exact Hs | exact Hr' | exact Hp'].
Defined.

Lemma C4_retry_unless_decoded_witness :
  posted (first_run fails_once_then_empty)
    (snd (query_perplexity ascii_only edgecore (first_run fails_once_then_empty)))
  = 2%nat /\
  fst (query_perplexity ascii_only edgecore (first_run fails_once_then_empty))
  = Ret (Some []) /\
  (2 <= posted (first_run not_json)
          (snd (query_perplexity ascii_only edgecore (first_run not_json))))%nat.
Proof.
  destruct (C4_retry_unless_decoded ascii_only edgecore
              (first_run fails_once_then_empty) 1 200 (Some (JObj [])))
    as (Hp & Hr).
  - lia.
  - intros i Hi. assert (i = 0%nat) as -> by lia. reflexivity.
  - lia.
  - reflexivity.
  - destruct (C4_retry_unless_decoded ascii_only edgecore
                (first_run not_json) 0 200 None) as (Hn & _).
    + lia.
    + intros i Hi. lia.
    + lia.
    + reflexivity.
    + split_and!; [exact Hp | by rewrite Hr | apply Hn; lia].
Defined.

Lemma C5_time_frame_witness :
  phrase_of later_run = py "in the last 8 days" /\
  user_content (payload_of edgecore later_run)
  = py "Find new products OR news OR announcements OR press release from edgecore.com in the last 8 days. Focus only on new content published since yesterday. Format each result with the title, a brief summary, and the URL." /\
  search_after_date_filter (payload_of edgecore later_run)
  = Some (py "05/21/2025") /\
  phrase_of (first_run always_fails) = [] /\
  search_after_date_filter (payload_of edgecore (first_run always_fails))
  = None.
Proof.
  destruct (C5_time_frame ascii_only edgecore later_run) as (_ & Hu & H).
  cbv zeta in H, Hu. change (last_scan (last_scan_data later_run))
    with (Some may_21) in H.
  destruct H as (_ & _ & H8 & Hf).
  destruct (C5_time_frame ascii_only edgecore (first_run always_fails))
    as (_ & _ & H0 & H0f).
  assert (Hp : phrase_of later_run = py "in the last 8 days").
  { rewrite H8; [reflexivity|]. vm_compute. reflexivity. }
  split_and!; [exact Hp| |exact Hf|exact H0|exact H0f].
  rewrite Hu, Hp. reflexivity.
Defined.

Lemma C6_fast_path_witness :
  _parse_perplexity_response ascii_only (response_of shouting) edgecore
  = Ret [].
Proof.
  apply (C6_fast_path ascii_only (response_of shouting) edgecore shouting
           (py "couldn't find")).
  - reflexivity.
  - unfold no_content_phrases. do 2 apply list_elem_of_further.
    apply list_elem_of_here.
  - exists (py "Sorry, I "), (py "COULDN'T FIND"), (py " anything.").
    split; [reflexivity|].
    repeat (constructor 2;
      [ (by left)
        || (right; split_and!; [by vm_compute | by vm_compute | reflexivity])
      | ]).
    constructor 1.
Defined.

Lemma C7_returned_articles_valid_witness :
  valid (article (py "Title") (py "a summary") []).
Proof.
  apply (C7_returned_articles_valid ascii_only
           (response_of title_and_summary) edgecore
           [article (py "Title") (py "a summary") []]).
  - vm_compute. reflexivity.
  - apply list_elem_of_here.
Defined.

Lemma C8_parser_total_witness :
  exists arts,
    _parse_perplexity_response ascii_only (response_of edgecore_text) edgecore
    = Ret arts.
Proof.
  apply (C8_parser_total ascii_only (response_of edgecore_text) edgecore
           edgecore_text).
  reflexivity.
Defined.

(** * Further properties *)

#[local] Set Warnings "-clear-no-such-hyp".

(** ** Substrings *)

Lemma startswith_prefix (s p : pystr) :
  startswith s p = true -> exists rest, s = p ++ rest.
Proof.
  revert s. induction p as [|a p IH]; intros s H; simpl in H.
  - by exists s.
  - destruct s as [|b s]; [done|].
    apply andb_true_iff in H as [Hab Hs]. apply N.eqb_eq in Hab as ->.
    destruct (IH s Hs) as [rest ->]. by exists rest.
Qed.

Lemma contains_infix (sub s : pystr) :
  contains sub s = true -> exists pre post, s = pre ++ sub ++ post.
Proof.
  induction s as [|c s IH]; simpl; intros H.
  - rewrite orb_false_r in H.
    destruct (startswith_prefix _ _ H) as [rest ->]. by exists [], rest.
  - apply orb_true_iff in H as [H|H].
    + destruct (startswith_prefix _ _ H) as [rest ->]. by exists [], rest.
    + destruct (IH H) as (pre & post & ->). by exists (c :: pre), post.
Qed.

Lemma contains_inside (sub a t b : pystr) :
  contains sub t = true -> contains sub (a ++ t ++ b) = true.
Proof.
  intros (pre & post & ->)%contains_infix.
  replace (a ++ (pre ++ sub ++ post) ++ b)
    with ((a ++ pre) ++ sub ++ (post ++ b)) by (by rewrite <- !app_assoc).
  apply contains_app.
Qed.

Lemma lstrip_suffix (s : pystr) : exists a, s = a ++ lstrip s.
Proof.
  induction s as [|c s [a IH]]; simpl; [by exists []|].
  destruct (isspace c); [|by exists []].
  exists (c :: a). by rewrite IH at 1.
Qed.

Lemma strip_inside (s : pystr) : exists a b, s = a ++ strip s ++ b.
Proof.
  unfold strip, rstrip. destruct (lstrip_suffix s) as [a Ha].
  destruct (lstrip_suffix (rev (lstrip s))) as [b Hb].
  exists a, (rev b). rewrite <- rev_app_distr, <- Hb, rev_involutive. exact Ha.
Qed.

Lemma contains_strip (sub s : pystr) :
  contains sub (strip s) = true -> contains sub s = true.
Proof.
  intros H. destruct (strip_inside s) as (a & b & Hs).
  rewrite Hs. by apply contains_inside.
Qed.

Lemma contains_slice_from (sub s : pystr) (i : Z) :
  contains sub (slice_from s i) = true -> contains sub s = true.
Proof.
  unfold slice_from. intros H.
  rewrite <- (take_drop (Z.to_nat (clamp s i)) s).
  rewrite <- (app_nil_r (drop _ s)). by apply contains_inside.
Qed.

Lemma has_url_bullet_text (line : pystr) :
  has_url (strip (slice_from line 1)) = true -> has_url line = true.
Proof.
  unfold has_url. intros [H1 H2]%andb_true_iff.
  apply andb_true_iff.
  split; eapply contains_slice_from, contains_strip; eassumption.
Qed.

(** ** The loop on the states it can reach *)

Lemma loop_body_no_bullet_link (st st' : PState) (line0 : pystr) (p : path) :
  loop_body st line0 = Ret (st', p) -> p <> BulletLink /\ p <> BulletLinkSkip.
Proof.
  unfold loop_body.
  destruct (truthy (strip line0)); simpl; [|by intros [= <- <-]].
  destruct (has_url (strip line0)) eqn:Hu.
  { destruct (current_article st) as [ca|];
      [destruct (dict_truthy ca && negb (has_key ca k_link))|];
      by intros [= <- <-]. }
  destruct (is_bullet_line (strip line0)); simpl; [|by intros [= <- <-]].
  destruct (has_url (strip (slice_from (strip line0) 1))) eqn:Hu'.
  { apply has_url_bullet_text in Hu'. congruence. }
  destruct (current_article st) as [ca|]; [|by intros [= <- <-]].
  destruct (dict_truthy ca); [|by intros [= <- <-]].
  destruct (getitem ca k_title) as [t|e]; simpl; [|done].
  destruct (truthy t); simpl; [|by intros [= <- <-]].
  destruct (getitem ca k_summary) as [s|e]; simpl; [|done].
  destruct (truthy s); simpl; by intros [= <- <-].
Qed.

(** X1: whatever the state and the lines, no line takes the branch of lines
    237-242 (a bullet line whose text holds a URL): a line with a URL is
    always handled by the test of line 216, before the bullet is looked
    at. *)
Theorem bullet_link_branch_dead (st : PState) (lines : list pystr) :
  (BulletLink ∉ paths st lines) /\ (BulletLinkSkip ∉ paths st lines).
Proof.
  revert st. induction lines as [|line rest IH]; intros st; simpl.
  - split; apply not_elem_of_nil.
  - destruct (loop_body st line) as [[st' p]|e] eqn:E;
      [|split; apply not_elem_of_nil].
    destruct (loop_body_no_bullet_link _ _ _ _ E) as [H1 H2].
    destruct (IH st') as [H3 H4].
    split; apply not_elem_of_cons; split; congruence || done.
Qed.

Lemma loop_body_step (st : PState) (line0 : pystr) :
  open_titled st ->
  exists p, loop_body st line0 = Ret (step st line0, p).
Proof.
  intros Hinv. unfold loop_body, step.
  destruct (truthy (strip line0)); simpl; [|by eexists].
  destruct (has_url (strip line0)) eqn:Hu.
  { destruct st as [arts [ca|]]; simpl in *; [|by eexists].
    destruct Hinv as (t & s & l & -> & Hne). simpl. by eexists. }
  destruct (is_bullet_line (strip line0)); simpl.
  2: { eexists. unfold flush. reflexivity. }
  destruct (has_url (strip (slice_from (strip line0) 1))) eqn:Hu'.
  { apply has_url_bullet_text in Hu'. congruence. }
  destruct st as [arts [ca|]]; simpl in *; [|by eexists].
  destruct Hinv as (t & s & l & -> & Hne). simpl.
  destruct t as [|c t]; [done|]. simpl.
  unfold get_truthy. simpl. destruct s as [|c' s]; simpl; by eexists.
Qed.

Lemma step_open_titled (st : PState) (line0 : pystr) :
  open_titled st -> open_titled (step st line0).
Proof.
  intros Hinv. destruct (loop_body_step st line0 Hinv) as [p Hp].
  destruct (loop_body_inv st line0 Hinv) as (st' & p' & Hp' & Hinv' & _).
  rewrite Hp in Hp'. by injection Hp' as -> _.
Qed.

Lemma loop_steps (lines : list pystr) (st : PState) :
  open_titled st -> loop st lines = Ret (fold_left step lines st).
Proof.
  revert st. induction lines as [|line rest IH]; intros st Hinv; simpl; [done|].
  destruct (loop_body_step st line Hinv) as [p ->]. simpl.
  by apply IH, step_open_titled.
Qed.

Lemma emitted_steps (lines : list pystr) :
  emitted lines = Ret (flush (fold_left step lines initial)).
Proof.
  unfold emitted. by rewrite (loop_steps lines initial initial_open_titled).
Qed.

Lemma flush_held (st : PState) : open_titled st -> flush st = held st.
Proof.
  destruct st as [arts [ca|]]; unfold flush, held; simpl;
    [|by rewrite app_nil_r].
  by intros (t & s & l & -> & _).
Qed.

Lemma fold_step_open_titled (lines : list pystr) (st : PState) :
  open_titled st -> open_titled (fold_left step lines st).
Proof.
  revert st. induction lines as [|line rest IH]; intros st Hinv; simpl; [done|].
  by apply IH, step_open_titled.
Qed.

(** ** Where the fields of an article come from *)

Lemma from_lines_mono (L L' : list pystr) (a : Article) :
  L ⊆ L' -> from_lines L a -> from_lines L' a.
Proof.
  intros Hsub ((l & Hl & Ht & Hta) & Hs & Hlink). split_and!; [|..|done].
  - exists l. split_and!; [by apply Hsub|done|done].
  - destruct Hs as [Hs|(l' & Hl' & Hb & Hsa & Hne)]; [by left|right].
    exists l'. split_and!; [by apply Hsub|done..].
Qed.

Lemma step_from_lines (L : list pystr) (st : PState) (line0 : pystr) :
  open_titled st ->
  Forall (from_lines L) (held st) ->
  Forall (from_lines (L ++ [line0])) (held (step st line0)).
Proof.
  intros Hinv Hall.
  assert (Hold : Forall (from_lines (L ++ [line0])) (held st)).
  { eapply Forall_impl; [exact Hall|]. intros a.
    apply from_lines_mono. set_solver. }
  assert (Hlast : line0 ∈ L ++ [line0]) by set_solver.
  unfold step.
  destruct (truthy (strip line0)) eqn:Ht; simpl; [|done].
  destruct (has_url (strip line0)) eqn:Hu; [done|].
  destruct (is_bullet_line (strip line0)) eqn:Hb; simpl.
  - destruct st as [arts [ca|]]; simpl in *; [|done].
    destruct Hinv as (t & s & l & -> & Hne).
    unfold get_truthy. simpl. destruct s as [|c s]; simpl; [|done].
    unfold held in *. simpl in *.
    destruct (proj1 (Forall_app _ _ _) Hold) as [Harts Hca].
    apply Forall_app. split; [done|].
    apply Forall_singleton. apply Forall_inv in Hca.
    destruct Hca as (Htitle & _ & Hlink). split_and!; [done| |done].
    destruct (strip (slice_from (strip line0) 1)) as [|c text] eqn:Etext;
      [by left|right].
    exists line0. unfold is_text_bullet. rewrite Ht, Hu, Hb, Etext. done.
  - rewrite (flush_held st Hinv). unfold held at 1. simpl.
    apply Forall_app. split; [done|]. apply Forall_singleton.
    split_and!; [|by left|done].
    exists line0. unfold is_title_line. rewrite Ht, Hu, Hb. done.
Qed.

Lemma fold_step_from_lines (lines L : list pystr) (st : PState) :
  open_titled st ->
  Forall (from_lines L) (held st) ->
  Forall (from_lines (L ++ lines)) (held (fold_left step lines st)).
Proof.
  revert L st. induction lines as [|line rest IH]; intros L st Hinv Hall; simpl.
  - by rewrite app_nil_r.
  - replace (L ++ line :: rest) with ((L ++ [line]) ++ rest)
      by (by rewrite <- app_assoc).
    apply IH; [by apply step_open_titled | by apply step_from_lines].
Qed.

Lemma emitted_from_lines (lines : list pystr) :
  exists arts, emitted lines = Ret arts /\ Forall (from_lines lines) arts.
Proof.
  exists (flush (fold_left step lines initial)).
  split; [apply emitted_steps|].
  rewrite flush_held by apply fold_step_open_titled, initial_open_titled.
  apply (fold_step_from_lines lines [] initial initial_open_titled).
  unfold held. simpl. constructor.
Qed.

(** An article the parser returns passed the filter and was appended by
    the loop over the lines of the answer text. *)
Lemma parse_elem special response supplier arts a :
  _parse_perplexity_response special response supplier = Ret arts ->
  a ∈ arts ->
  exists text all,
    content_of response = Ret (JStr text) /\
    emitted (split 10 text) = Ret all /\ a ∈ all /\ keep a = true.
Proof.
  unfold _parse_perplexity_response, try_except. intros Hp Hin.
  destruct (content_of response) as [content|e] eqn:Ec; simpl in Hp.
  2: { destruct (caught_by_parser e); [|done].
       injection Hp as <-. by apply elem_of_nil in Hin. }
  destruct content as [ |b|n|text|items|members]; simpl in Hp; try done.
  destruct (no_new_content (lower special text)).
  { injection Hp as <-. by apply elem_of_nil in Hin. }
  destruct (emitted (split 10 text)) as [all|e] eqn:Ee; simpl in Hp.
  2: { destruct (caught_by_parser e); [|done].
       injection Hp as <-. by apply elem_of_nil in Hin. }
  injection Hp as <-. apply list_elem_of_filter in Hin as [Hk Hin].
  by exists text, all.
Qed.

Lemma kept_from_lines (lines : list pystr) (a : Article) :
  from_lines lines a -> keep a = true ->
  (exists l, l ∈ lines /\ is_title_line l = true /\ title a = Some (strip l)) /\
  (exists l, l ∈ lines /\ is_text_bullet l = true /\
     summary a = Some (strip (slice_from (strip l) 1)) /\
     strip (slice_from (strip l) 1) <> []) /\
  link a = Some [].
Proof.
  intros (Ht & Hs & Hl) Hk. split_and!; [done| |done].
  destruct Hs as [Hs|Hs]; [|done].
  unfold keep, get_truthy in Hk. simpl in Hk. rewrite Hs, Hl in Hk.
  simpl in Hk. by rewrite andb_false_r in Hk.
Qed.

Lemma returned_from_lines special response supplier arts a :
  _parse_perplexity_response special response supplier = Ret arts ->
  a ∈ arts ->
  exists text,
    content_of response = Ret (JStr text) /\
    from_lines (split 10 text) a /\ keep a = true.
Proof.
  intros Hp Hin.
  destruct (parse_elem _ _ _ _ _ Hp Hin) as (text & all & Hc & He & Ha & Hk).
  destruct (emitted_from_lines (split 10 text)) as (all' & He' & Hall).
  rewrite He in He'. injection He' as <-.
  rewrite Forall_forall in Hall. exists text. auto.
Qed.

(** X4: No article the parser returns has a link: the link of every returned
    article is the empty string, so that each has a summary that is not
    empty (the one thing left for the filter to accept). *)
Theorem returned_articles_have_no_link special response supplier arts a :
  _parse_perplexity_response special response supplier = Ret arts ->
  a ∈ arts ->
  link a = Some [] /\ exists s, summary a = Some s /\ s <> [].
Proof.
  intros Hp Hin.
  destruct (returned_from_lines _ _ _ _ _ Hp Hin) as (text & _ & Hfrom & Hk).
  destruct (kept_from_lines _ _ Hfrom Hk) as (_ & (l & _ & _ & Hs & Hne) & Hl).
  split; [done|]. eauto.
Qed.

(** X5: The parser makes nothing up: the title of a returned article is a line
    of the answer text, stripped, that holds no URL and starts with no
    bullet, and its summary is the text of a bullet line of the answer
    (the line without its marker, stripped). *)
Theorem returned_articles_from_text special response supplier text arts a :
  content_of response = Ret (JStr text) ->
  _parse_perplexity_response special response supplier = Ret arts ->
  a ∈ arts ->
  (exists l, l ∈ split 10 text /\ is_title_line l = true /\
     title a = Some (strip l)) /\
  (exists l, l ∈ split 10 text /\ is_text_bullet l = true /\
     summary a = Some (strip (slice_from (strip l) 1))).
Proof.
  intros Hc Hp Hin.
  destruct (returned_from_lines _ _ _ _ _ Hp Hin) as (text' & Hc' & Hfrom & Hk).
  rewrite Hc in Hc'. injection Hc' as <-.
  destruct (kept_from_lines _ _ Hfrom Hk) as (Ht & (l & Hl & Hb & Hs & _) & _).
  split; [done|]. by exists l.
Qed.

Lemma parse_text_total special response supplier text :
  content_of response = Ret (JStr text) ->
  exists arts, _parse_perplexity_response special response supplier = Ret arts.
Proof.
  intros Hc. rewrite (parse_of_text _ _ _ _ Hc).
  destruct (no_new_content (lower special text)); [by exists []|].
  destruct (emitted_total (split 10 text)) as [arts ->]. simpl. eauto.
Qed.

(** X6: An answer without a bullet line gives no article at all, whatever its
    titles and links: a summary can only come from a bullet line and a
    link is never stored. *)
Theorem no_bullet_no_article special response supplier text :
  content_of response = Ret (JStr text) ->
  Forall (fun l => is_text_bullet l = false) (split 10 text) ->
  _parse_perplexity_response special response supplier = Ret [].
Proof.
  intros Hc Hnone.
  destruct (parse_text_total special response supplier text Hc) as [arts Hp].
  rewrite Hp. f_equal. destruct arts as [|a arts]; [done|exfalso].
  destruct (returned_from_lines _ _ _ _ a Hp) as (text' & Hc' & Hfrom & Hk);
    [apply list_elem_of_here|].
  rewrite Hc in Hc'. injection Hc' as <-.
  destruct (kept_from_lines _ _ Hfrom Hk) as (_ & (l & Hl & Hb & _) & _).
  rewrite Forall_forall in Hnone. rewrite (Hnone l Hl) in Hb. done.
Qed.

(** ** Counting and blank lines *)

Lemma step_held_length (st : PState) (line0 : pystr) :
  open_titled st ->
  length (held (step st line0))
  = (length (held st) + if is_title_line line0 then 1 else 0)%nat.
Proof.
  intros Hinv. unfold step, is_title_line.
  destruct (truthy (strip line0)); simpl; [|lia].
  destruct (has_url (strip line0)); simpl; [lia|].
  destruct (is_bullet_line (strip line0)); simpl.
  - destruct st as [arts [ca|]]; simpl in *; [|lia].
    destruct (get_truthy ca k_summary); [lia|].
    unfold held. simpl. rewrite !length_app. simpl. lia.
  - rewrite (flush_held st Hinv). unfold held at 1. simpl.
    rewrite length_app. simpl. lia.
Qed.

Lemma fold_step_held_length (lines : list pystr) (st : PState) :
  open_titled st ->
  length (held (fold_left step lines st))
  = (length (held st)
     + length (filter (fun l => is_title_line l = true) lines))%nat.
Proof.
  revert st. induction lines as [|line rest IH]; intros st Hinv; simpl; [lia|].
  rewrite IH by (by apply step_open_titled).
  rewrite step_held_length by done. rewrite filter_cons.
  destruct (is_title_line line).
  - rewrite decide_True by done. simpl. lia.
  - rewrite decide_False by done. lia.
Qed.

(** X7: The loop appends exactly one article for each title line (a line that
    is not blank, holds no URL and starts with no bullet); the parser
    returns at most that many. *)
Theorem one_article_per_title_line special response supplier text arts :
  content_of response = Ret (JStr text) ->
  _parse_perplexity_response special response supplier = Ret arts ->
  (exists all, emitted (split 10 text) = Ret all /\
     length all
     = length (filter (fun l => is_title_line l = true) (split 10 text))) /\
  (length arts
   <= length (filter (fun l => is_title_line l = true) (split 10 text)))%nat.
Proof.
  intros Hc Hp.
  assert (Hlen : length (flush (fold_left step (split 10 text) initial))
    = length (filter (fun l => is_title_line l = true) (split 10 text))).
  { rewrite flush_held by apply fold_step_open_titled, initial_open_titled.
    by rewrite fold_step_held_length by apply initial_open_titled. }
  split; [eexists; split; [apply emitted_steps | exact Hlen]|].
  rewrite (parse_of_text _ _ _ _ Hc), emitted_steps in Hp. simpl in Hp.
  destruct (no_new_content (lower special text)); injection Hp as <-.
  - simpl. lia.
  - rewrite <- Hlen. apply length_filter.
Qed.

Lemma loop_body_blank (st : PState) (line0 : pystr) :
  is_nonblank line0 = false -> loop_body st line0 = Ret (st, Blank).
Proof. unfold is_nonblank, loop_body. by intros ->. Qed.

(** X8: Lines that are empty or hold only white space do not matter: the loop
    ends in the same state with them and without them, from any state. *)
Theorem blank_lines_ignored (st : PState) (lines : list pystr) :
  loop st (filter (fun l => is_nonblank l = true) lines) = loop st lines.
Proof.
  revert st. induction lines as [|line rest IH]; intros st; [done|].
  rewrite filter_cons. destruct (is_nonblank line) eqn:E.
  - rewrite decide_True by done. simpl.
    destruct (loop_body st line) as [[st' p]|e]; simpl; [apply IH|done].
  - rewrite decide_False by done. simpl.
    rewrite (loop_body_blank st line E). simpl. apply IH.
Qed.

(** ** Responses that are not of the expected shape *)

Lemma getitem_str_raises (x : json) (k : pystr) (e : exn) :
  getitem_str x k = Raise e -> e = KeyError \/ e = TypeError.
Proof.
  destruct x as [ |b|n|s|items|members]; simpl; try (intros [= <-]; by right).
  destruct (assoc k members); [done|]. intros [= <-]. by left.
Qed.

Lemma getitem_0_raises (x : json) (e : exn) :
  getitem_0 x = Raise e -> e = KeyError \/ e = IndexError \/ e = TypeError.
Proof.
  destruct x as [ |b|n|s|items|members]; simpl;
    try (intros [= <-]; by auto).
  - destruct s; [intros [= <-]; by auto | done].
  - destruct items; [intros [= <-]; by auto | done].
Qed.

Lemma content_of_raises (response : json) (e : exn) :
  content_of response = Raise e ->
  e = KeyError \/ e = IndexError \/ e = TypeError.
Proof.
  unfold content_of.
  destruct (getitem_str response (py "choices")) as [choices|e0] eqn:E0; simpl.
  2: { intros [= <-]. apply getitem_str_raises in E0. tauto. }
  destruct (getitem_0 choices) as [choice|e1] eqn:E1; simpl.
  2: { intros [= <-]. by apply getitem_0_raises in E1. }
  destruct (getitem_str choice (py "message")) as [message|e2] eqn:E2; simpl.
  2: { intros [= <-]. apply getitem_str_raises in E2. tauto. }
  intros H%getitem_str_raises. tauto.
Qed.

Lemma parse_raises special response supplier e :
  _parse_perplexity_response special response supplier = Raise e ->
  e = TypeError \/ e = AttributeError.
Proof.
  unfold _parse_perplexity_response, try_except.
  destruct (content_of response) as [content|e0] eqn:Ec; simpl.
  { destruct content as [ |b|n|text|items|members]; simpl;
      try (intros [= <-]; by right).
    destruct (no_new_content (lower special text)); [done|].
    destruct (emitted_total (split 10 text)) as [arts ->]. done. }
  destruct (content_of_raises _ _ Ec) as [-> | [-> | ->]]; simpl; try done.
  intros [= <-]. by left.
Qed.

(** X2: The only exceptions that leave the parser are [TypeError] (a subscript
    on a value of the wrong type) and [AttributeError] (a content that is
    not a string); a missing key or an empty list never does. *)
Theorem parser_raises_only_type_errors special response supplier e :
  _parse_perplexity_response special response supplier = Raise e ->
  e = TypeError \/ e = AttributeError.
Proof. apply parse_raises. Qed.

(** X3: A response without the expected keys gives the empty list: an object
    without ['choices'], an empty list of choices, a choice without
    ['message'] and a message without ['content'] are all answered with
    [[]], not with an exception. *)
Theorem missing_keys_give_no_article special supplier
    (members choice message : list (pystr * json)) (more : list json) :
  (assoc (py "choices") members = None ->
   _parse_perplexity_response special (JObj members) supplier = Ret []) /\
  (assoc (py "choices") members = Some (JArr []) ->
   _parse_perplexity_response special (JObj members) supplier = Ret []) /\
  (assoc (py "choices") members = Some (JArr (JObj choice :: more)) ->
   assoc (py "message") choice = None ->
   _parse_perplexity_response special (JObj members) supplier = Ret []) /\
  (assoc (py "choices") members = Some (JArr (JObj choice :: more)) ->
   assoc (py "message") choice = Some (JObj message) ->
   assoc (py "content") message = None ->
   _parse_perplexity_response special (JObj members) supplier = Ret []).
Proof.
  unfold _parse_perplexity_response, content_of, getitem_str.
  split_and!.
  - by intros ->.
  - by intros ->.
  - intros -> H. simpl. by rewrite H.
  - intros -> H1 H2. simpl. rewrite H1. simpl. by rewrite H2.
Qed.

(** ** What a query returns and what it leaves alone *)

Lemma parsed_cases special supplier body :
  (exists arts, parsed special supplier body = Ret (Some arts)) \/
  parsed special supplier body = Raise TypeError \/
  parsed special supplier body = Raise AttributeError.
Proof.
  unfold parsed.
  destruct (_parse_perplexity_response special body supplier) as [arts|e] eqn:E;
    simpl; [by eauto|].
  destruct (parse_raises _ _ _ _ E) as [-> | ->]; auto.
Qed.

Lemma query_result_cases special supplier w :
  (exists arts, fst (query_perplexity special supplier w) = Ret (Some arts)) \/
  (exists e, fst (query_perplexity special supplier w) = Raise e /\
             e <> RequestException).
Proof.
  pose proof (query_perplexity_cases special supplier w) as H.
  cbv zeta beta in H.
  assert (Hparsed : forall b r,
    r = parsed special supplier b ->
    (exists arts, r = Ret (Some arts)) \/
    (exists e, r = Raise e /\ e <> RequestException)).
  { intros b r ->. destruct (parsed_cases special supplier b)
      as [[arts ->] | [-> | ->]]; [by eauto | right; by eexists..]. }
  repeat (destruct (network w _) as [?|?] in H || case_bool_decide);
    destruct H as (Hr & _); eauto.
Qed.

(** X10: A call never returns [None] (the end of the [for] loop is never
    reached) and never lets a [RequestException] out: it returns a list, or
    raises what the transport or the parser raised of another class. *)
Theorem query_returns_list_or_raises_other special supplier w :
  fst (query_perplexity special supplier w) <> Ret None /\
  fst (query_perplexity special supplier w) <> Raise RequestException /\
  ((exists arts, fst (query_perplexity special supplier w) = Ret (Some arts)) \/
   (exists e, fst (query_perplexity special supplier w) = Raise e)).
Proof.
  destruct (query_result_cases special supplier w)
    as [[arts ->] | (e & -> & He)]; split_and!; try done; eauto.
  by intros [= ->].
Qed.

Lemma same_store_refl (w : World) : same_store w w.
Proof. by repeat split. Qed.

Lemma same_store_trans (w1 w2 w3 : World) :
  same_store w1 w2 -> same_store w2 w3 -> same_store w1 w3.
Proof.
  unfold same_store. intros (?&?&?&?&?&?) (?&?&?&?&?&?).
  split_and!; congruence.
Qed.

Lemma attempts_same_store special supplier data todo w :
  same_store w (snd (attempts special supplier data todo w)) /\
  clock_reads (snd (attempts special supplier data todo w)) = clock_reads w.
Proof.
  revert w. induction todo as [|attempt rest IH]; intros w.
  { split; [by repeat split | done]. }
  rewrite attempts_step.
  destruct (network w (length (requests_made w))) as [b|e];
    [split; [by repeat split | done]|].
  case_bool_decide; [|split; [by repeat split | done]].
  destruct (attempt <? max_retries - 1);
    [|split; [by repeat split | done]].
  destruct (IH (sleep (2 ^ attempt) (snd (post data w)))) as [Hs Hc].
  split; [|by rewrite Hc].
  eapply same_store_trans; [|exact Hs]. by repeat split.
Qed.

Lemma query_frame special supplier w :
  same_store w (snd (query_perplexity special supplier w)) /\
  clock_reads (snd (query_perplexity special supplier w))
  = (clock_reads w
     + match last_scan (last_scan_data w) with Some _ => 1 | None => 0 end)%nat.
Proof.
  rewrite query_perplexity_attempts.
  destruct (attempts_same_store special supplier (payload_of supplier w)
              [0; 1; 2] (snd (build_time_frame w))) as [Hs ->].
  assert (Hb : same_store w (snd (build_time_frame w)) /\
    clock_reads (snd (build_time_frame w))
    = (clock_reads w
       + match last_scan (last_scan_data w) with Some _ => 1 | None => 0 end)%nat).
  { unfold build_time_frame.
    destruct (last_scan (last_scan_data w)); simpl;
      (split; [by repeat split | lia]). }
  destruct Hb as [Hb ->]. split; [|done].
  eapply same_store_trans; eassumption.
Qed.

(** X11: A call changes nothing but the log of requests, the log of sleeps
    and the clock: the state kept, the data file and the notifications are
    as before, and the clock is read once when there is a last scan and
    not at all when there is none. *)
Theorem query_leaves_state_alone special supplier w :
  same_store w (snd (query_perplexity special supplier w)) /\
  clock_reads (snd (query_perplexity special supplier w))
  = (clock_reads w
     + match last_scan (last_scan_data w) with Some _ => 1 | None => 0 end)%nat.
Proof. apply query_frame. Qed.

(** ** The scan of the suppliers *)

Lemma query_posts special supplier w :
  exists n, (1 <= n <= 3)%nat /\
    requests_made (snd (query_perplexity special supplier w))
    = requests_made w ++ replicate n (payload_of supplier w).
Proof.
  pose proof (query_perplexity_cases special supplier w) as H.
  cbv zeta beta in H.
  repeat (destruct (network w _) as [?|?] in H || case_bool_decide);
    destruct H as (_ & -> & _);
    (by exists 1%nat; split; [lia|]) || (by exists 2%nat; split; [lia|])
    || (by exists 3%nat; split; [lia|]).
Qed.

(** What the body of the loop over the suppliers does, in all cases. *)
Lemma run_supplier_cases special supplier acc w :
  exists arts n,
    (1 <= n <= 3)%nat /\
    fst (run_supplier special supplier acc w)
    = <[name supplier := Some arts]> acc /\
    requests_made (snd (run_supplier special supplier acc w))
    = requests_made w ++ replicate n (payload_of supplier w) /\
    same_store w (snd (run_supplier special supplier acc w)).
Proof.
  destruct (query_posts special supplier w) as (n & Hn & Hreq).
  destruct (query_frame special supplier w) as [Hs _].
  unfold run_supplier.
  destruct (query_result_cases special supplier w)
    as [[arts Hr] | (e & Hr & _)];
    destruct (query_perplexity special supplier w) as [r w1];
    simpl in Hr; subst r; simpl in *.
  - exists arts, n. split_and!; done || lia.
  - exists [], n. split_and!; done || lia.
Qed.

Lemma run_loop_same_store special suppliers acc w :
  same_store w (snd (run_loop special suppliers acc w)).
Proof.
  revert acc w. induction suppliers as [|s rest IH]; intros acc w.
  - apply same_store_refl.
  - rewrite run_loop_cons.
    destruct (run_supplier_cases special s acc w) as (_ & _ & _ & _ & _ & Hs).
    eapply same_store_trans; [exact Hs | apply IH].
Qed.

Lemma run_loop_dom special suppliers acc w :
  dom (fst (run_loop special suppliers acc w))
  = dom acc ∪ (list_to_set (map name suppliers) : gset pystr).
Proof.
  revert acc w. induction suppliers as [|s rest IH]; intros acc w.
  - simpl. set_solver.
  - rewrite run_loop_cons, IH.
    destruct (run_supplier_cases special s acc w) as (arts & _ & _ & -> & _).
    rewrite dom_insert_L. simpl. set_solver.
Qed.

Lemma run_loop_values special suppliers acc w :
  map_Forall (fun _ v => is_Some v) acc ->
  map_Forall (fun _ v => is_Some v) (fst (run_loop special suppliers acc w)).
Proof.
  revert acc w. induction suppliers as [|s rest IH]; intros acc w Hacc; [done|].
  rewrite run_loop_cons. apply IH.
  destruct (run_supplier_cases special s acc w) as (arts & _ & _ & -> & _).
  apply map_Forall_insert_2; [by eexists | done].
Qed.

(** The end of [run], field by field. *)
Lemma run_tail special suppliers w :
  let q := run special suppliers w in
  let l := run_loop special suppliers ∅ w in
  fst q = (if mail_fails (fst l) then Raise UnicodeEncodeError
           else Ret (fst l)) /\
  requests_made (snd q) = requests_made (snd l) /\
  slept (snd q) = slept (snd l) /\
  last_scan_data (snd q)
  = mkScanData (Some (clock (snd l) (clock_reads (snd l)))) (fst l) /\
  data_file (snd q)
  = match writing w with
    | Written => Holds (last_scan_data (snd q))
    | OpenFails => data_file w
    | DumpFails => NotJSON
    end /\
  notified (snd q)
  = notified w
    ++ (if existsb (fun kv => articles_truthy (snd kv)) (map_to_list (fst l))
           && encodable (email_body (map_to_list (fst l)))
        then [fst l] else []).
Proof.
  intros q l. subst q. unfold run, mail_fails.
  pose proof (run_loop_same_store special suppliers ∅ w)
    as (_ & _ & Hw & _ & Hf & Hn).
  fold l in Hw, Hf, Hn |- *. destruct l as [all_results w1].
  cbn [fst snd] in *. unfold datetime_now, set_last_scan_data,
    _save_last_scan_data, send_email_notification.
  cbn [writing]. rewrite Hw.
  destruct (writing w);
    destruct (existsb _ (map_to_list all_results));
    destruct (encodable (email_body (map_to_list all_results))); cbn;
    rewrite ?Hn, ?Hf, ?app_nil_r; by repeat split.
Qed.

Lemma run_returns special suppliers w r :
  fst (run special suppliers w) = Ret r ->
  r = fst (run_loop special suppliers ∅ w).
Proof.
  pose proof (run_tail special suppliers w) as (-> & _).
  destruct (mail_fails _); [done|]. by intros [= <-].
Qed.

(** X12: The mapping [run] accumulates and stores, which is the one it
    returns whenever it returns, has exactly the names of the suppliers as
    its keys, and a list under each of them (never [None]). *)
Theorem run_entries special suppliers w :
  let m := fst (run_loop special suppliers ∅ w) in
  dom m = (list_to_set (map name suppliers) : gset pystr) /\
  (forall k v, m !! k = Some v -> exists arts, v = Some arts) /\
  results (last_scan_data (snd (run special suppliers w))) = m /\
  (forall r, fst (run special suppliers w) = Ret r -> r = m).
Proof.
  intros m. pose proof (run_tail special suppliers w) as (_ & _ & _ & Hd & _).
  split_and!.
  - unfold m. rewrite run_loop_dom, dom_empty_L. set_solver.
  - intros k v Hk.
    by apply (run_loop_values special suppliers ∅ w (map_Forall_empty _) k v).
  - by rewrite Hd.
  - apply run_returns.
Qed.

Lemma payload_of_filters (supplier : Supplier) (w : World) :
  payload_of_run (last_scan (last_scan_data w)) [supplier]
    (payload_of supplier w).
Proof.
  unfold payload_of_run, payload_of, build_data. cbn [search_after_date_filter
    search_recency_filter search_domain_filter].
  split_and!; [by destruct (last_scan (last_scan_data w)) | done |].
  exists supplier. split; [apply list_elem_of_here | done].
Qed.

Lemma payload_of_run_mono last (l1 l2 : list Supplier) (p : Payload) :
  l1 ⊆ l2 -> payload_of_run last l1 p -> payload_of_run last l2 p.
Proof.
  intros Hsub (Hd & Hr & s & Hs & Hdom). split_and!; [done..|].
  exists s. split; [by apply Hsub | done].
Qed.

Lemma run_loop_requests special suppliers acc w :
  exists extra,
    requests_made (snd (run_loop special suppliers acc w))
    = requests_made w ++ extra /\
    (length suppliers <= length extra <= 3 * length suppliers)%nat /\
    Forall (payload_of_run (last_scan (last_scan_data w)) suppliers) extra.
Proof.
  revert acc w. induction suppliers as [|s rest IH]; intros acc w.
  { exists []. simpl. rewrite app_nil_r. split_and!; done || lia. }
  rewrite run_loop_cons.
  destruct (run_supplier_cases special s acc w)
    as (arts & n & Hn & _ & Hreq & Hstore).
  destruct (IH (fst (run_supplier special s acc w))
              (snd (run_supplier special s acc w)))
    as (extra & Hreq' & Hlen & Hall).
  destruct Hstore as (_ & _ & _ & Hd & _). rewrite Hd in Hall.
  exists (replicate n (payload_of s w) ++ extra).
  rewrite Hreq', Hreq, <- app_assoc, length_app, length_replicate.
  split_and!; [done| simpl; lia | simpl; lia |].
  apply Forall_app. split.
  - apply Forall_replicate.
    eapply payload_of_run_mono; [|apply payload_of_filters]. set_solver.
  - eapply Forall_impl; [exact Hall|]. intros p.
    apply payload_of_run_mono. set_solver.
Qed.

Lemma payload_of_block (supplier : Supplier) (w : World) (n : nat) :
  (1 <= n <= 3)%nat ->
  block_for (last_scan (last_scan_data w)) supplier
    (replicate n (payload_of supplier w)).
Proof.
  intros Hn. split; [by rewrite length_replicate|].
  apply Forall_replicate.
  unfold payload_of, build_data. cbn [search_after_date_filter
    search_recency_filter search_domain_filter].
  split_and!; [done | by destruct (last_scan (last_scan_data w)) | done].
Qed.

Lemma run_loop_blocks special suppliers acc w :
  exists blocks,
    requests_made (snd (run_loop special suppliers acc w))
    = requests_made w ++ concat blocks /\
    Forall2 (block_for (last_scan (last_scan_data w))) suppliers blocks.
Proof.
  revert acc w. induction suppliers as [|s rest IH]; intros acc w.
  { exists []. simpl. rewrite app_nil_r. split; [done|constructor]. }
  rewrite run_loop_cons.
  destruct (run_supplier_cases special s acc w)
    as (arts & n & Hn & _ & Hreq & Hstore).
  destruct (IH (fst (run_supplier special s acc w))
              (snd (run_supplier special s acc w)))
    as (blocks & Hreq' & Hall).
  destruct Hstore as (_ & _ & _ & Hd & _). rewrite Hd in Hall.
  exists (replicate n (payload_of s w) :: blocks).
  rewrite Hreq', Hreq, <- app_assoc. split; [done|].
  constructor; [by apply payload_of_block | done].
Qed.

(** X13: The requests of a run are, supplier after supplier in the order
    of the list, one to three requests for that supplier, each with the
    supplier's domain as its domain filter, the filter ["month"] and the
    date filter of the last scan known when the run began (none on a first
    run): the time of the run itself is only stored after the last
    supplier. *)
Theorem run_requests special suppliers w :
  exists blocks,
    requests_made (snd (run special suppliers w))
    = requests_made w ++ concat blocks /\
    Forall2 (block_for (last_scan (last_scan_data w))) suppliers blocks.
Proof.
  pose proof (run_tail special suppliers w) as (_ & -> & _).
  apply run_loop_blocks.
Qed.

Lemma has_content_iff (m : gmap pystr (option (list Article))) :
  existsb (fun kv => articles_truthy (snd kv)) (map_to_list m) = true
  <-> has_articles m.
Proof.
  rewrite existsb_exists. unfold has_articles. split.
  - intros ([k v] & Hin%list_elem_of_In%elem_of_map_to_list & Hv).
    destruct v as [[|a arts]|]; try done. by exists k, a, arts.
  - intros (k & a & arts & Hk). exists (k, Some (a :: arts)).
    split; [|done]. by apply list_elem_of_In, elem_of_map_to_list.
Qed.

Lemma mail_encodable_iff (m : gmap pystr (option (list Article))) :
  encodable (email_body (map_to_list m)) = true <-> mail_encodable m.
Proof.
  rewrite encodable_sections, forallb_forall. unfold mail_encodable. split.
  - intros H k v Hk.
    apply (H (k, v)). by apply list_elem_of_In, elem_of_map_to_list.
  - intros H [k v] Hin%list_elem_of_In%elem_of_map_to_list. by apply H.
Qed.

(** X14: When some supplier has an article and every section of the text
    can be encoded, a run hands one notification, carrying the mapping, to
    the mail transport and returns the mapping; when some supplier has an
    article and a section cannot be encoded, building the message raises
    [UnicodeEncodeError] out of [run], nothing is handed over and the state
    is already stored; when every list is empty there is no notification
    and the mapping is returned. *)
Theorem run_notifies_only_with_articles special suppliers w :
  let q := run special suppliers w in
  let m := fst (run_loop special suppliers ∅ w) in
  (has_articles m -> mail_encodable m ->
   fst q = Ret m /\ notified (snd q) = notified w ++ [m]) /\
  (has_articles m -> ~ mail_encodable m ->
   fst q = Raise UnicodeEncodeError /\ notified (snd q) = notified w /\
   results (last_scan_data (snd q)) = m) /\
  (~ has_articles m -> fst q = Ret m /\ notified (snd q) = notified w).
Proof.
  intros q m.
  pose proof (run_tail special suppliers w) as (Hq & _ & _ & Hd & _ & Hn).
  fold q m in Hq, Hn, Hd. rewrite Hq, Hn, Hd. unfold mail_fails.
  destruct (existsb _ (map_to_list m)) eqn:E;
    destruct (encodable (email_body (map_to_list m))) eqn:E'; simpl.
  - split_and!; [done| |].
    + intros _ Hno. by apply mail_encodable_iff in E'.
    + intros Hno. by apply has_content_iff in E.
  - split_and!.
    + intros _ Hyes%mail_encodable_iff. congruence.
    + by rewrite app_nil_r.
    + intros Hno. by apply has_content_iff in E.
  - split_and!; [intros Hyes%has_content_iff; congruence..|].
    by rewrite app_nil_r.
  - split_and!; [intros Hyes%has_content_iff; congruence..|].
    by rewrite app_nil_r.
Qed.

(** X15: The mapping holds, under a name, what the last supplier of that name
    gave: the list its query returned, or the empty list when the query
    raised. *)
Theorem last_supplier_of_a_name_wins special pre s post w :
  name s ∉ map name post ->
  let m := fst (run_loop special (pre ++ s :: post) ∅ w) in
  m !! name s
  = match fst (query_perplexity special s
                 (snd (run_loop special pre ∅ w))) with
    | Ret articles => Some articles
    | Raise _ => Some (Some [])
    end /\
  results (last_scan_data (snd (run special (pre ++ s :: post) w))) = m /\
  (forall r, fst (run special (pre ++ s :: post) w) = Ret r -> r = m).
Proof.
  intros Hfresh m.
  pose proof (run_tail special (pre ++ s :: post) w) as (_ & _ & _ & Hd & _).
  split_and!; [|by rewrite Hd|apply run_returns].
  unfold m. rewrite run_loop_app, run_loop_cons, run_loop_other_key by done.
  unfold run_supplier.
  destruct (query_perplexity special s (snd (run_loop special pre ∅ w)))
    as [[r|e] w1]; cbn [fst]; apply lookup_insert_eq.
Qed.

(** ** A run without network *)

Lemma query_all_fail special supplier w :
  (forall n, network w n = Raises RequestException) ->
  let q := query_perplexity special supplier w in
  fst q = Ret (Some []) /\
  requests_made (snd q)
  = requests_made w ++ replicate 3 (payload_of supplier w) /\
  slept (snd q) = slept w ++ [1; 2].
Proof.
  intros Hdown q.
  pose proof (query_perplexity_cases special supplier w) as H.
  cbv zeta beta in H. rewrite !Hdown in H.
  by rewrite !bool_decide_eq_true_2 in H by done.
Qed.

Lemma run_supplier_all_fail special supplier acc w :
  (forall n, network w n = Raises RequestException) ->
  let r := run_supplier special supplier acc w in
  fst r = <[name supplier := Some []]> acc /\
  requests_made (snd r)
  = requests_made w ++ replicate 3 (payload_of supplier w) /\
  slept (snd r) = slept w ++ [1; 2; 1] /\
  network (snd r) = network w.
Proof.
  intros Hdown r. subst r.
  destruct (query_all_fail special supplier w Hdown) as (Hr & Hreq & Hs).
  destruct (query_frame special supplier w) as [(Hn & _) _].
  unfold run_supplier.
  destruct (query_perplexity special supplier w) as [res w1].
  simpl in Hr. subst res. cbn [fst snd sleep requests_made slept network] in *.
  rewrite Hs, <- app_assoc. done.
Qed.

Lemma run_loop_all_fail special suppliers acc w :
  (forall n, network w n = Raises RequestException) ->
  map_Forall (fun _ v => v = Some []) acc ->
  let l := run_loop special suppliers acc w in
  map_Forall (fun _ v => v = Some []) (fst l) /\
  length (requests_made (snd l))
  = (length (requests_made w) + 3 * length suppliers)%nat /\
  slept (snd l) = slept w ++ flat_map (fun _ => [1; 2; 1]) suppliers.
Proof.
  revert acc w. induction suppliers as [|s rest IH]; intros acc w Hdown Hacc.
  { simpl. rewrite app_nil_r. split_and!; done || lia. }
  cbv zeta. rewrite run_loop_cons.
  destruct (run_supplier_all_fail special s acc w Hdown)
    as (Hfst & Hreq & Hs & Hn).
  destruct (IH (fst (run_supplier special s acc w))
              (snd (run_supplier special s acc w))) as (Hv & Hlen & Hsl).
  - intros n. by rewrite Hn.
  - rewrite Hfst. by apply map_Forall_insert_2.
  - split_and!; [done| |].
    + rewrite Hlen, Hreq, length_app, length_replicate. simpl. lia.
    + rewrite Hsl, Hs, <- app_assoc. done.
Qed.

(** X16: When every request fails, the run still ends and returns: each
    supplier has the empty list, three requests were posted for each, the
    sleeps were 1, 2 (between the attempts) and 1 (after the supplier), no
    notification was sent and the state has its last-scan time set. *)
Theorem run_when_every_request_fails special suppliers w :
  (forall n, network w n = Raises RequestException) ->
  let q := run special suppliers w in
  (exists m, fst q = Ret m /\
     forall s, s ∈ suppliers -> m !! name s = Some (Some [])) /\
  posted w (snd q) = (3 * length suppliers)%nat /\
  slept (snd q) = slept w ++ flat_map (fun _ => [1; 2; 1]) suppliers /\
  notified (snd q) = notified w /\
  is_Some (last_scan (last_scan_data (snd q))).
Proof.
  intros Hdown q.
  pose proof (run_tail special suppliers w) as (Hq & Hreq & Hs & Hd & _ & Hn).
  fold q in Hq, Hreq, Hs, Hd, Hn.
  destruct (run_loop_all_fail special suppliers ∅ w Hdown (map_Forall_empty _))
    as (Hv & Hlen & Hsl).
  assert (Hnone : existsb (fun kv => articles_truthy (snd kv))
                    (map_to_list (fst (run_loop special suppliers ∅ w)))
                  = false).
  { destruct (existsb _ (map_to_list _)) eqn:E; [|done].
    apply has_content_iff in E as (k & a & arts & Hk).
    by specialize (Hv _ _ Hk). }
  split_and!.
  - eexists. split; [rewrite Hq; unfold mail_fails; by rewrite Hnone|].
    intros s Hin.
    destruct (run_loop_every_key special suppliers ∅ w s Hin) as [v Hk].
    rewrite Hk. f_equal. exact (Hv _ _ Hk).
  - unfold posted. rewrite Hreq, Hlen. lia.
  - by rewrite Hs.
  - rewrite Hn, Hnone. by rewrite app_nil_r.
  - rewrite Hd. by eexists.
Qed.

(** ** From one job to the next *)

Lemma load_cases (w : World) :
  data_file w <> Unreadable ->
  exists d, _load_last_scan_data w = Ret d /\
    match data_file w with
    | Holds d0 => d = d0
    | _ => d = empty_data
    end.
Proof.
  unfold _load_last_scan_data. destruct (data_file w); try done; by eexists.
Qed.

Lemma job_runs special (c : N) (key : pystr) (w : World) (d : ScanData) :
  _load_last_scan_data w = Ret d ->
  run_supplier_monitor special (Some (c :: key)) w
  = snd (run special CONFIG_suppliers (set_last_scan_data d w)).
Proof. unfold run_supplier_monitor, __init__. by intros ->. Qed.

Lemma job_requests special (c : N) (key : pystr) (w : World) (d : ScanData) :
  _load_last_scan_data w = Ret d ->
  exists extra,
    requests_made (run_supplier_monitor special (Some (c :: key)) w)
    = requests_made w ++ extra /\
    (7 <= length extra <= 21)%nat /\
    Forall (fun p => search_after_date_filter p
                     = strftime_mdY <$> last_scan d) extra.
Proof.
  intros Hload. rewrite (job_runs _ _ _ _ _ Hload).
  pose proof (run_tail special CONFIG_suppliers (set_last_scan_data d w))
    as (_ & Hreq & _).
  destruct (run_loop_requests special CONFIG_suppliers ∅
              (set_last_scan_data d w)) as (extra & Hreq' & Hlen & Hall).
  exists extra. split_and!.
  - by rewrite Hreq, Hreq'.
  - simpl in Hlen. lia.
  - simpl in Hlen. lia.
  - eapply Forall_impl; [exact Hall|]. by intros p (Hp & _).
Qed.

(** X17: When the data file can be read and written, the job that comes
    next starts from what this job stored: every request it posts carries
    this job's last-scan time as its date filter (the job posts between 7
    and 21 requests, for the seven configured suppliers). *)
Theorem next_job_uses_saved_time special (key : pystr) (w : World) :
  key <> [] ->
  writing w = Written ->
  data_file w <> Unreadable ->
  let w1 := run_supplier_monitor special (Some key) w in
  exists t extra,
    last_scan (last_scan_data w1) = Some t /\
    data_file w1 = Holds (last_scan_data w1) /\
    requests_made (run_supplier_monitor special (Some key) w1)
    = requests_made w1 ++ extra /\
    (7 <= length extra <= 21)%nat /\
    Forall (fun p => search_after_date_filter p = Some (strftime_mdY t)) extra.
Proof.
  intros Hkey Hw Hfile w1. subst w1.
  destruct key as [|c key]; [done|].
  destruct (load_cases w Hfile) as (d & Hload & _).
  rewrite (job_runs _ _ _ _ _ Hload).
  pose proof (run_tail special CONFIG_suppliers (set_last_scan_data d w))
    as (_ & _ & _ & Hd & Hf & _).
  set (w1 := snd (run special CONFIG_suppliers (set_last_scan_data d w))) in *.
  change (writing (set_last_scan_data d w)) with (writing w) in Hf.
  rewrite Hw in Hf.
  assert (Hload1 : _load_last_scan_data w1 = Ret (last_scan_data w1)).
  { unfold _load_last_scan_data. by rewrite Hf. }
  destruct (job_requests special c key w1 _ Hload1)
    as (extra & Hreq & Hlen & Hall).
  eexists _, extra. split_and!; [by rewrite Hd|done|done|lia|lia|].
  eapply Forall_impl; [exact Hall|]. intros p ->. by rewrite Hd.
Qed.

(** X18: A write of the data file that fails loses the time of the scan.
    When [open] fails the file stays as it was, and the monitor that comes
    next loads what this one loaded; when the write fails after [open],
    which emptied the file, what is left is not JSON and the monitor that
    comes next starts from the empty state, as on a first scan. *)
Theorem failed_write_loses_the_scan special (key : pystr) (w : World) :
  key <> [] ->
  data_file w <> Unreadable ->
  let w1 := run_supplier_monitor special (Some key) w in
  (writing w = OpenFails ->
   data_file w1 = data_file w /\
   _load_last_scan_data w1 = _load_last_scan_data w) /\
  (writing w = DumpFails ->
   data_file w1 = NotJSON /\ _load_last_scan_data w1 = Ret empty_data).
Proof.
  intros Hkey Hfile w1. subst w1.
  destruct key as [|c key]; [done|].
  destruct (load_cases w Hfile) as (d & Hload & _).
  rewrite (job_runs _ _ _ _ _ Hload).
  pose proof (run_tail special CONFIG_suppliers (set_last_scan_data d w))
    as (_ & _ & _ & _ & Hf & _).
  change (writing (set_last_scan_data d w)) with (writing w) in Hf.
  change (data_file (set_last_scan_data d w)) with (data_file w) in Hf.
  split; intros Hw; rewrite Hw in Hf; unfold _load_last_scan_data;
    by rewrite Hf.
Qed.

(** ** The text of the notification *)

Lemma sections_skip_empty (items : list (pystr * option (list Article))) :
  flat_map (fun kv => supplier_section (fst kv) (snd kv))
    (filter (fun kv => articles_truthy (snd kv) = true) items)
  = flat_map (fun kv => supplier_section (fst kv) (snd kv)) items.
Proof.
  induction items as [|[k v] items IH]; [done|].
  rewrite filter_cons. cbn [snd]. destruct (articles_truthy v) eqn:E.
  - rewrite decide_True by done. cbn [flat_map]. by rewrite IH.
  - rewrite decide_False by done. cbn [flat_map]. rewrite IH.
    by destruct v as [[|a arts]|].
Qed.

(** X20: Suppliers without articles leave no trace in the text: it is the same
    with and without their entries. *)
Theorem email_skips_empty_suppliers
    (items : list (pystr * option (list Article))) :
  email_body (filter (fun kv => articles_truthy (snd kv) = true) items)
  = email_body items.
Proof. unfold email_body. by rewrite sections_skip_empty. Qed.

(** X21: An article the parser returned is written as a title line and a
    summary line, both present, and never a link line. *)
Theorem email_shows_no_link special response supplier arts a :
  _parse_perplexity_response special response supplier = Ret arts ->
  a ∈ arts ->
  exists t s,
    t <> [] /\ s <> [] /\
    article_text a
    = py "* " ++ t ++ [10%N] ++ py "* " ++ s ++ [10%N] ++ [10%N].
Proof.
  intros Hp Hin.
  destruct (returned_from_lines _ _ _ _ _ Hp Hin) as (text & _ & Hfrom & Hk).
  destruct (kept_from_lines _ _ Hfrom Hk)
    as ((l & _ & Hl & Ht) & (l' & _ & _ & Hs & Hne) & Hlink).
  exists (strip l), (strip (slice_from (strip l') 1)).
  split_and!; [|done|].
  - unfold is_title_line in Hl.
    apply andb_true_iff in Hl as [[Hl _]%andb_true_iff _].
    by apply truthy_nonempty.
  - unfold article_text. simpl. by rewrite Ht, Hs, Hlink.
Qed.

(** ** Lines with a URL *)

Lemma step_url (st : PState) (line0 : pystr) :
  has_url (strip line0) = true -> step st line0 = st.
Proof. unfold step. intros ->. by destruct (truthy (strip line0)). Qed.

Lemma fold_step_skip_urls (lines : list pystr) (st : PState) :
  fold_left step (filter (fun l => has_url (strip l) = false) lines) st
  = fold_left step lines st.
Proof.
  revert st. induction lines as [|line rest IH]; intros st; [done|].
  rewrite filter_cons. destruct (has_url (strip line)) eqn:E.
  - rewrite decide_False by done. simpl. by rewrite (step_url st line E).
  - rewrite decide_True by done. simpl. apply IH.
Qed.

(** X9: A line that holds a URL has no effect at all on the articles the loop
    appends: they are the same with these lines and without them (such a
    line neither stores its link nor closes the open article). *)
Theorem url_lines_ignored (lines : list pystr) :
  emitted (filter (fun l => has_url (strip l) = false) lines) = emitted lines.
Proof. by rewrite !emitted_steps, fold_step_skip_urls. Qed.

(** ** The first job *)

(** X19: Without a data file, or with one that is not JSON, the job runs
    as a first scan: none of the 7 to 21 requests it posts has a date
    filter.  With a data file that cannot be read or decoded (an exception
    other than the two that are caught) the constructor raises and the job
    ends at once: no request is posted and nothing changes. *)
Theorem first_job_sends_no_date_filter special (key : pystr) (w : World) :
  key <> [] ->
  (data_file w = Missing \/ data_file w = NotJSON ->
   exists extra,
     requests_made (run_supplier_monitor special (Some key) w)
     = requests_made w ++ extra /\
     (7 <= length extra <= 21)%nat /\
     Forall (fun p => search_after_date_filter p = None) extra) /\
  (data_file w = Unreadable ->
   run_supplier_monitor special (Some key) w = w).
Proof.
  intros Hkey. destruct key as [|c key]; [done|]. split.
  - intros Hfile.
    assert (Hload : _load_last_scan_data w = Ret empty_data).
    { unfold _load_last_scan_data. by destruct Hfile as [-> | ->]. }
    exact (job_requests special c key w _ Hload).
  - intros Hfile. unfold run_supplier_monitor, __init__, _load_last_scan_data.
    by rewrite Hfile.
Qed.

(** ** Instances of the further properties *)

Lemma parser_raises_only_type_errors_witness :
  TypeError = TypeError \/ TypeError = AttributeError.
Proof.
  apply (parser_raises_only_type_errors ascii_only (JArr []) edgecore).
  reflexivity.
Defined.

Lemma missing_keys_give_no_article_witness :
  _parse_perplexity_response ascii_only
    (JObj [(py "choices", JArr [JObj [(py "message", JObj [])]])]) edgecore
  = Ret [].
Proof.
  destruct (missing_keys_give_no_article ascii_only edgecore
              [(py "choices", JArr [JObj [(py "message", JObj [])]])]
              [(py "message", JObj [])] [] [])
    as (_ & _ & _ & H).
  apply H; reflexivity.
Defined.

Lemma returned_articles_have_no_link_witness :
  link the_article = Some [] /\
  exists s, summary the_article = Some s /\ s <> [].
Proof.
  apply (returned_articles_have_no_link ascii_only
           (response_of title_and_summary) edgecore [the_article]).
  - vm_compute. reflexivity.
  - apply list_elem_of_here.
Defined.

Lemma returned_articles_from_text_witness :
  (exists l, l ∈ split 10 title_and_summary /\ is_title_line l = true /\
     title the_article = Some (strip l)) /\
  (exists l, l ∈ split 10 title_and_summary /\ is_text_bullet l = true /\
     summary the_article = Some (strip (slice_from (strip l) 1))).
Proof.
  apply (returned_articles_from_text ascii_only
           (response_of title_and_summary) edgecore title_and_summary
           [the_article]).
  - reflexivity.
  - vm_compute. reflexivity.
  - apply list_elem_of_here.
Defined.

Lemma no_bullet_no_article_witness :
  _parse_perplexity_response ascii_only (response_of edgecore_text) edgecore
  = Ret [].
Proof.
  apply (no_bullet_no_article ascii_only (response_of edgecore_text) edgecore
           edgecore_text).
  - reflexivity.
  - apply Forall_forall. intros l Hl.
    change (split 10 edgecore_text)
      with [py "Edgecore launches NG-OLT";
            py "New line of optical line terminals.";
            py "https://edgecore.com/news/1"; []] in Hl.
    rewrite !elem_of_cons, elem_of_nil in Hl.
    destruct Hl as [->|[->|[->|[->|[]]]]]; reflexivity.
Defined.

Lemma one_article_per_title_line_witness :
  (exists all, emitted (split 10 edgecore_text) = Ret all /\
     length all
     = length (filter (fun l => is_title_line l = true)
                 (split 10 edgecore_text))) /\
  (length (@nil Article)
   <= length (filter (fun l => is_title_line l = true)
                (split 10 edgecore_text)))%nat.
Proof.
  apply (one_article_per_title_line ascii_only (response_of edgecore_text)
           edgecore edgecore_text []).
  - reflexivity.
  - vm_compute. reflexivity.
Defined.

Lemma run_entries_witness :
  exists arts,
    Some [the_article] = Some arts.
Proof.
  destruct (run_entries ascii_only [edgecore] (first_run answers_article))
    as (_ & H & _).
  apply (H (name edgecore)). vm_compute. reflexivity.
Defined.

Lemma run_notifies_only_with_articles_witness :
  (fst (run ascii_only [edgecore] (first_run answers_article))
   = Ret (fst (run_loop ascii_only [edgecore] ∅ (first_run answers_article)))
   /\
   notified (snd (run ascii_only [edgecore] (first_run answers_article)))
   = [fst (run_loop ascii_only [edgecore] ∅ (first_run answers_article))]) /\
  (fst (run ascii_only [edgecore] (first_run answers_surrogate))
   = Raise UnicodeEncodeError /\
   notified (snd (run ascii_only [edgecore] (first_run answers_surrogate)))
   = []) /\
  notified (snd (run ascii_only [edgecore] (first_run always_fails))) = [].
Proof.
  destruct (run_notifies_only_with_articles ascii_only [edgecore]
              (first_run answers_article)) as (Hyes & _).
  destruct (run_notifies_only_with_articles ascii_only [edgecore]
              (first_run answers_surrogate)) as (_ & Hbad & _).
  destruct (run_notifies_only_with_articles ascii_only [edgecore]
              (first_run always_fails)) as (_ & _ & Hno).
  split; [|split].
  - apply Hyes.
    + exists (name edgecore), the_article, []. vm_compute. reflexivity.
    + apply mail_encodable_iff. vm_compute. reflexivity.
  - destruct Hbad as (Hr & Hn & _); [| |by split].
    + exists (name edgecore),
        (article ([0xD800%N] ++ py "Title") (py "a summary") []), [].
      vm_compute. reflexivity.
    + intros Henc%mail_encodable_iff. vm_compute in Henc. discriminate Henc.
  - destruct Hno as (_ & Hn); [|exact Hn].
    intros Hhas%has_content_iff. vm_compute in Hhas. discriminate Hhas.
Defined.

Lemma last_supplier_of_a_name_wins_witness :
  fst (run_loop ascii_only [edgecore; ip_infusion; edgecore] ∅
         (first_run fails_twice)) !! name edgecore
  = Some (Some [the_article]).
Proof.
  pose proof (last_supplier_of_a_name_wins ascii_only [edgecore; ip_infusion]
                edgecore [] (first_run fails_twice)) as H.
  cbn [app map] in H. destruct H as (H & _); [apply not_elem_of_nil|].
  rewrite H. vm_compute. reflexivity.
Defined.

Lemma run_when_every_request_fails_witness :
  posted (first_run always_fails)
    (snd (run ascii_only CONFIG_suppliers (first_run always_fails)))
  = 21%nat.
Proof.
  destruct (run_when_every_request_fails ascii_only CONFIG_suppliers
              (first_run always_fails)) as (_ & H & _).
  - intros n. reflexivity.
  - exact H.
Defined.

Lemma next_job_uses_saved_time_witness :
  exists t extra,
    last_scan (last_scan_data
      (run_supplier_monitor ascii_only (Some (py "key"))
         (first_run always_fails))) = Some t /\
    data_file (run_supplier_monitor ascii_only (Some (py "key"))
                 (first_run always_fails))
    = Holds (last_scan_data
               (run_supplier_monitor ascii_only (Some (py "key"))
                  (first_run always_fails))) /\
    requests_made
      (run_supplier_monitor ascii_only (Some (py "key"))
         (run_supplier_monitor ascii_only (Some (py "key"))
            (first_run always_fails)))
    = requests_made (run_supplier_monitor ascii_only (Some (py "key"))
                       (first_run always_fails)) ++ extra /\
    (7 <= length extra <= 21)%nat /\
    Forall (fun p => search_after_date_filter p = Some (strftime_mdY t)) extra.
Proof.
  apply (next_job_uses_saved_time ascii_only (py "key")
           (first_run always_fails)).
  - discriminate.
  - reflexivity.
  - discriminate.
Defined.

Lemma failed_write_loses_the_scan_witness :
  data_file (run_supplier_monitor ascii_only (Some (py "key")) read_only_run)
  = Holds (mkScanData (Some may_21) ∅) /\
  _load_last_scan_data
    (run_supplier_monitor ascii_only (Some (py "key")) cut_off_run)
  = Ret empty_data.
Proof.
  destruct (failed_write_loses_the_scan ascii_only (py "key") read_only_run)
    as (H & _); [discriminate..|].
  destruct (failed_write_loses_the_scan ascii_only (py "key") cut_off_run)
    as (_ & H'); [discriminate..|].
  destruct H as (H & _); [reflexivity|].
  destruct H' as (_ & H'); [reflexivity|].
  split; [exact H | exact H'].
Defined.

Lemma email_shows_no_link_witness :
  exists t s,
    t <> [] /\ s <> [] /\
    article_text the_article
    = py "* " ++ t ++ [10%N] ++ py "* " ++ s ++ [10%N] ++ [10%N].
Proof.
  apply (email_shows_no_link ascii_only (response_of title_and_summary)
           edgecore [the_article]).
  - vm_compute. reflexivity.
  - apply list_elem_of_here.
Defined.

Lemma first_job_sends_no_date_filter_witness :
  (exists extra,
     requests_made (run_supplier_monitor ascii_only (Some (py "key"))
                      not_json_file_run)
     = [] ++ extra /\
     (7 <= length extra <= 21)%nat /\
     Forall (fun p => search_after_date_filter p = None) extra) /\
  run_supplier_monitor ascii_only (Some (py "key")) unreadable_run
  = unreadable_run.
Proof.
  destruct (first_job_sends_no_date_filter ascii_only (py "key")
              not_json_file_run) as (H & _); [discriminate|].
  destruct (first_job_sends_no_date_filter ascii_only (py "key")
              unreadable_run) as (_ & H'); [discriminate|].
  split; [apply H; by right | apply H'; reflexivity].
Defined.
